(** * Auction-It: the bidding engine

    A shallow embedding of the bid and auction controllers and of the
    Mongoose models they work on.

    - [Bid], [Auction]      : the Bid model and the Auction model
                              ('../models/Bid', '../models/Auction';
                              src/unnamed/part_001)
    - [Item]                : src/backend/models/Item.js
    - [bidController]       : [placeBid] of the Bid Controller
                              ('../controllers/bidController'; second half of
                              src/backend/controllers/authController.js)
    - [auctionController]   : [cancelAuction] of the Auction Controller
                              (src/unnamed/part_002)
    - [auctionUpdate]       : [updateAuction] of the same controller
    - [browse]              : the views, pages and ending-soon list of the
                              same controller
    - [bidHistory]          : [getBidHistory] of the Bid Controller
    - [authMiddleware]      : the role checks of
                              src/backend/middleware/auth.js
    - [CountdownTimer], [AuctionCard] : the pure parts of the two
                              components under src/frontend/src/components

    Conventions of the embedding.

    - A JavaScript [Number] holding money is the rational [Q] it stands
      for; comparisons of Numbers are comparisons of rationals, and a sum
      of Numbers is the exact sum rounded to binary64 ([Number.add]).  The
      bid amount is the numeric value of [req.body.amount].
    - A [Date] is its number of milliseconds, a [Z]; every reading of the
      clock is an input of the request ([Env]).
    - The database is a [Store]: auctions and items by id, and the log of
      bid documents.  A call into the database either completes or throws;
      which of the two happens is an input of the request too ([Env]), so
      a handler is a function [Store -> Store * Response].  Requests are
      served one after the other.
    - [mongoose.Types.ObjectId.isValid] is library code and a parameter. *)

From Stdlib Require Import ZArith QArith Lqa String List Sorted.
From Stdlib Require Import Qround.
From stdpp Require Import gmap strings.
Import ListNotations.

Local Open Scope Z_scope.

(** ** Numbers, messages, completions *)

#[global] Instance Qle_decision (x y : Q) : Decision (x <= y)%Q :=
  decide (Qnum x * QDen y <= Qnum y * QDen x)%Z.

#[global] Instance Qlt_decision (x y : Q) : Decision (x < y)%Q :=
  decide (Qnum x * QDen y < Qnum y * QDen x)%Z.

(** ** Number: the sum of two doubles

    [x + y] on JavaScript Numbers is the exact sum rounded to the nearest
    binary64 value, ties to even.  A finite double is a rational, so the
    sum is computed on rationals: [exponent] finds the grid of doubles
    around the exact result, [round_half_even] the nearest point on it.
    (The overflow to [Infinity] beyond 1.8e308 is outside the model.) *)

Module Number.

(** The integer nearest to [n / d], ties to even; [0 <= n], [0 < d]. *)
Definition round_half_even (n d : Z) : Z :=
  let q := n / d in
  let r := n mod d in
  match 2 * r ?= d with
  | Lt => q
  | Gt => q + 1
  | Eq => if Z.even q then q else q + 1
  end.

(** The exponent [e] with [2^52 <= n / (d * 2^e) < 2^53], and [-1074]
    where the doubles are subnormal. *)
Definition exponent (n d : Z) : Z :=
  let e1 := Z.log2 n - Z.log2 d - 52 in
  let below :=
    if 0 <=? e1 + 52 then n <? d * 2 ^ (e1 + 52)
    else n * 2 ^ (- (e1 + 52)) <? d in
  Z.max (-1074) (if below then e1 - 1 else e1).

(** [m * 2^e]. *)
Definition scale (m e : Z) : Q :=
  if 0 <=? e then inject_Z (m * 2 ^ e) else m # Z.to_pos (2 ^ (- e)).

Definition round_pos (n d : Z) : Q :=
  let e := exponent n d in
  let m := if 0 <=? e then round_half_even n (d * 2 ^ e)
           else round_half_even (n * 2 ^ (- e)) d in
  scale m e.

(** The double nearest to a rational. *)
Definition round (q : Q) : Q :=
  match Qnum q with
  | Z0 => 0%Q
  | Zpos n => round_pos (Zpos n) (Zpos (Qden q))
  | Zneg n => Qopp (round_pos (Zpos n) (Zpos (Qden q)))
  end.

Definition add (x y : Q) : Q := round (x + y).

End Number.

(** The text of an [Error] or of a [message] field.  A template literal
    keeps its interpolated number as it is: [`at least ${n} higher`] is
    [[Lit "at least "; Num n; Lit " higher"]]. *)
Inductive Fragment : Type :=
| Lit (s : string)
| Num (q : Q).

Definition Message : Type := list Fragment.

Definition text (s : string) : Message := [Lit s].

(** A method either returns or throws an [Error] with a message. *)
Inductive Completion (A : Type) : Type :=
| Return (a : A)
| Throw (msg : Message).

Arguments Return {A} a.
Arguments Throw {A} msg.

(** ** models/Item.js *)

Module Item.

Inductive Status : Type := available | in_auction | sold.

Record t : Type := mk {
  title : string;
  description : string;
  seller : string;
  condition : string;
  status : Status;
  category : string;
  views : Z
}.

Definition set_status (v : Status) (i : t) : t :=
  mk (title i) (description i) (seller i) (condition i) v (category i) (views i).

End Item.

(** ** models/Bid.js *)

Module Bid.

Record t : Type := mk {
  auction : string;
  bidder : string;
  amount : Q
}.

End Bid.

(** ** models/Auction.js *)

Module Auction.

Inductive Status : Type := draft | pending | active | ended | cancelled | sold.

#[global] Instance Status_eq_dec : EqDecision Status.
Proof. solve_decision. Defined.

Record t : Type := mk {
  item : string;
  seller : string;
  startPrice : Q;
  currentPrice : Q;
  reservePrice : Q;
  minIncrement : Q;
  startTime : Z;
  endTime : Z;
  status : Status;
  totalBids : Z;
  watchers : list string;
  winner : option string;
  finalPrice : option Q;
  isApproved : bool;
  approvedBy : option string;
  approvedAt : option Z;
  createdAt : Z;
  updatedAt : Z
}.

Definition set_currentPrice (v : Q) (a : t) : t :=
  mk (item a) (seller a) (startPrice a) v (reservePrice a) (minIncrement a)
     (startTime a) (endTime a) (status a) (totalBids a) (watchers a) (winner a)
     (finalPrice a) (isApproved a) (approvedBy a) (approvedAt a) (createdAt a)
     (updatedAt a).

Definition set_totalBids (v : Z) (a : t) : t :=
  mk (item a) (seller a) (startPrice a) (currentPrice a) (reservePrice a)
     (minIncrement a) (startTime a) (endTime a) (status a) v (watchers a)
     (winner a) (finalPrice a) (isApproved a) (approvedBy a) (approvedAt a)
     (createdAt a) (updatedAt a).

Definition set_status (v : Status) (a : t) : t :=
  mk (item a) (seller a) (startPrice a) (currentPrice a) (reservePrice a)
     (minIncrement a) (startTime a) (endTime a) v (totalBids a) (watchers a)
     (winner a) (finalPrice a) (isApproved a) (approvedBy a) (approvedAt a)
     (createdAt a) (updatedAt a).

Definition set_updatedAt (v : Z) (a : t) : t :=
  mk (item a) (seller a) (startPrice a) (currentPrice a) (reservePrice a)
     (minIncrement a) (startTime a) (endTime a) (status a) (totalBids a)
     (watchers a) (winner a) (finalPrice a) (isApproved a) (approvedBy a)
     (approvedAt a) (createdAt a) v.

(** [auctionSchema.pre('save')]: [this.updatedAt = Date.now()]. *)
Definition pre_save (dateNow : Z) (a : t) : t := set_updatedAt dateNow a.

(** The validator of [startTime], [value > new Date()], and that of
    [endTime], [value > this.startTime]; [clock] is the value of
    [new Date()]. *)
Definition startTime_validator (clock : Z) (a : t) : bool :=
  bool_decide (clock < startTime a).

Definition endTime_validator (a : t) : bool :=
  bool_decide (startTime a < endTime a).

(** [isActive]; [now] is the value of [new Date()]. *)
Definition isActive (now : Z) (a : t) : bool :=
  bool_decide (status a = active)
  && bool_decide (startTime a <= now)
  && bool_decide (now <= endTime a).

Definition hasStarted (now : Z) (a : t) : bool :=
  bool_decide (startTime a <= now).

Definition hasEnded (now : Z) (a : t) : bool :=
  bool_decide (endTime a < now).

Definition getTimeRemaining (now now' : Z) (a : t) : Z :=
  if hasEnded now a then 0 else endTime a - now'.

(** [placeBid(amount)]: the document after the call, or the error thrown.
    The value [true] it returns is not used by its caller. *)
Definition placeBid (now : Z) (amount : Q) (a : t) : Completion t :=
  if negb (isActive now a) then
    Throw (text "Auction is not active")
  else if bool_decide (amount <= currentPrice a)%Q then
    Throw (text "Bid must be higher than current price")
  else if bool_decide (amount < Number.add (currentPrice a) (minIncrement a))%Q then
    Throw [Lit "Bid must be at least "; Num (minIncrement a); Lit " higher"]
  else
    Return (set_totalBids (totalBids a + 1) (set_currentPrice amount a)).

End Auction.

(** ** The database and the world of one request *)

Record Store : Type := mkStore {
  auctions : gmap string Auction.t;
  bids : list Bid.t;
  items : gmap string Item.t
}.

(** What one request reads from outside: the clock, and for every call into
    the database whether it throws ([Some msg]) or completes ([None]).
    Mongoose runs the schema validators inside [create] and [save]; a failed
    validation is one of the ways these calls throw. *)
Record Env : Type := mkEnv {
  now : Z;                              (* [new Date()] in [isActive] *)
  dateNow : Z;                          (* [Date.now()] in the pre-save hook *)
  findById_throws : option Message;     (* [Auction.findById] *)
  create_throws : option Message;       (* [Bid.create] *)
  save_throws : option Message;         (* [auction.save] *)
  findByIdAndUpdate_throws : option Message  (* [Item.findByIdAndUpdate] *)
}.

(** [auction.save()] runs the schema's validators again, the one of
    [startTime] included: in a world that [save_validated] describes, the
    save of [a] completes only if [startTime] is still ahead of [clock],
    the clock as the validator reads it. *)
Definition save_validated (clock : Z) (env : Env) (a : Auction.t) : Prop :=
  save_throws env = None -> Auction.startTime_validator clock a = true.

(** [Bid.create(doc)] appends to the bid log. *)
Definition Bid_create (b : Bid.t) (s : Store) : Store :=
  mkStore (auctions s) (bids s ++ [b]) (items s).

(** [auction.save()] runs the pre-save hook and writes the document back
    under its id. *)
Definition Auction_save (dateNow : Z) (id : string) (a : Auction.t) (s : Store) : Store :=
  mkStore (<[id := Auction.pre_save dateNow a]> (auctions s)) (bids s) (items s).

(** [Item.findByIdAndUpdate(id, { status: v })]: no document, no change. *)
Definition Item_findByIdAndUpdate_status (id : string) (v : Item.Status) (s : Store) : Store :=
  mkStore (auctions s) (bids s) (alter (Item.set_status v) id (items s)).

(** ** HTTP responses *)

Inductive Json : Type :=
| JBool (b : bool)
| JText (m : Message)
| JNumber (q : Q)
| JCount (n : Z)
| JBid (b : Bid.t).

Record Response : Type := mkResponse {
  code : nat;
  body : list (string * Json)
}.

(** [obj[key]] on a response body. *)
Fixpoint field (key : string) (o : list (string * Json)) : option Json :=
  match o with
  | [] => None
  | (k, v) :: rest => if bool_decide (k = key) then Some v else field key rest
  end.

(** ** controllers/bidController.js *)

Module bidController.

Record Request : Type := mkRequest {
  auctionId : string;    (* [req.params.auctionId] *)
  userId : string;       (* [req.user.id] *)
  amount : Q             (* [req.body.amount] *)
}.

Definition message_only (c : nat) (m : Message) : Response :=
  mkResponse c [("message"%string, JText m)].

Section placeBid.

Variable ObjectId_isValid : string -> bool.

Definition placeBid (req : Request) (env : Env) (s : Store) : Store * Response :=
  if negb (ObjectId_isValid (auctionId req)) then
    (s, message_only 400 (text "Invalid auction ID"))
  else
    match findById_throws env with
    | Some err => (s, message_only 500 err)
    | None =>
      match auctions s !! auctionId req with
      | None => (s, message_only 404 (text "Auction not found"))
      | Some auction =>
        if bool_decide (Auction.seller auction = userId req) then
          (s, message_only 400 (text "You cannot bid on your own auction"))
        else
          match Auction.placeBid (now env) (amount req) auction with
          | Throw err => (s, message_only 400 err)
          | Return auction' =>
            match create_throws env with
            | Some err => (s, message_only 500 err)
            | None =>
              let bid := Bid.mk (auctionId req) (userId req) (amount req) in
              let s1 := Bid_create bid s in
              match save_throws env with
              | Some err => (s1, message_only 500 err)
              | None =>
                (Auction_save (dateNow env) (auctionId req) auction' s1,
                 mkResponse 201
                   [("success"%string, JBool true);
                    ("message"%string, JText (text "Bid placed successfully"));
                    ("bid"%string, JBid bid);
                    ("currentPrice"%string, JNumber (Auction.currentPrice auction'));
                    ("totalBids"%string, JCount (Auction.totalBids auction'))])
              end
            end
          end
      end
    end.

End placeBid.

End bidController.

(** ** controllers/auctionController.js *)

Module auctionController.

Record Request : Type := mkRequest {
  id : string;         (* [req.params.id] *)
  userId : string;     (* [req.user._id.toString()] *)
  role : string        (* [req.user.role] *)
}.

Definition failure (c : nat) (m : string) : Response :=
  mkResponse c [("success"%string, JBool false); ("message"%string, JText (text m))].

Definition caught (err : Message) : Response :=
  mkResponse 500
    [("success"%string, JBool false);
     ("message"%string, JText (text "Failed to cancel auction"));
     ("error"%string, JText err)].

Definition cancelAuction (req : Request) (env : Env) (s : Store) : Store * Response :=
  match findById_throws env with
  | Some err => (s, caught err)
  | None =>
    match auctions s !! id req with
    | None => (s, failure 404 "Auction not found")
    | Some auction =>
      if negb (bool_decide (Auction.seller auction = userId req))
         && negb (bool_decide (role req = "admin"%string)) then
        (s, failure 403 "You can only cancel your own auctions")
      else if bool_decide (0 < Auction.totalBids auction) then
        (s, failure 400 "Cannot cancel auction with existing bids")
      else
        let auction' := Auction.set_status Auction.cancelled auction in
        match save_throws env with
        | Some err => (s, caught err)
        | None =>
          let s1 := Auction_save (dateNow env) (id req) auction' s in
          match findByIdAndUpdate_throws env with
          | Some err => (s1, caught err)
          | None =>
            (Item_findByIdAndUpdate_status (Auction.item auction) Item.available s1,
             mkResponse 200
               [("success"%string, JBool true);
                ("message"%string, JText (text "Auction cancelled successfully"))])
          end
        end
    end
  end.

End auctionController.

(** ** The engine as a transition system *)

(** The operations that write to an auction. *)
Inductive Op : Type :=
| PlaceBid (req : bidController.Request) (env : Env)
| CancelAuction (req : auctionController.Request) (env : Env).

Section engine.

Variable ObjectId_isValid : string -> bool.

Definition step (s : Store) (op : Op) : Store :=
  match op with
  | PlaceBid req env => (bidController.placeBid ObjectId_isValid req env s).1
  | CancelAuction req env => (auctionController.cancelAuction req env s).1
  end.

(** A history of the engine: operations served one after the other. *)
Definition run (ops : list Op) (s : Store) : Store := fold_left step ops s.

(** A submission to a fixed auction: who bids, how much, in which world. *)
Definition Submission : Type := string * Q * Env.

(** The values of [currentPrice] committed for auction [id] by a sequence
    of submissions, each served on the database its predecessor left: one
    value for every submission that is accepted. *)
Fixpoint committedPrices (id : string) (subs : list Submission) (s : Store) : list Q :=
  match subs with
  | [] => []
  | (user, amt, env) :: rest =>
    let r := bidController.placeBid ObjectId_isValid
               (bidController.mkRequest id user amt) env s in
    let later := committedPrices id rest r.1 in
    if bool_decide (code r.2 = 201%nat) then
      match auctions r.1 !! id with
      | Some a' => Auction.currentPrice a' :: later
      | None => later
      end
    else later
  end.

End engine.

(** The number of bid documents stored for an auction. *)
Definition bidCount (id : string) (s : Store) : Z :=
  Z.of_nat (length (filter (fun b => Bid.auction b = id) (bids s))).

(** ** The validator as the specification words it

    Section 4.1 of the specification: five rules, checked in this order,
    the first failure wins.  Used only to compare with the code. *)

Module Spec.




End Spec.

(** ** middleware/auth.js: the role checks

    [authorize(...roles)], [sellerOnly] and [adminOnly] look at [req.user]
    only; [user] is the role of the attached user, [None] when no user is
    attached. *)

Module authMiddleware.

(** A middleware calls [next()] or answers the request itself. *)
Inductive Outcome : Type :=
| Next
| Respond (r : Response).

Definition deny (c : nat) (m : string) : Outcome :=
  Respond (mkResponse c
             [("success"%string, JBool false); ("message"%string, JText (text m))]).

Definition authorize (roles : list string) (user : option string) : Outcome :=
  match user with
  | None => deny 401 "User not authenticated"
  | Some role =>
    if negb (bool_decide (role ∈ roles)) then
      deny 403 ("User role " ++ role
                ++ " is not authorized to access this route. Required roles: "
                ++ String.concat ", " roles)
    else Next
  end.

Definition sellerOnly (user : option string) : Outcome :=
  match user with
  | None => deny 401 "User not authenticated"
  | Some role =>
    if bool_decide (role <> "seller"%string) && bool_decide (role <> "admin"%string) then
      deny 403 "This action requires seller or admin privileges"
    else Next
  end.

Definition adminOnly (user : option string) : Outcome :=
  match user with
  | None => deny 401 "User not authenticated"
  | Some role =>
    if bool_decide (role <> "admin"%string) then
      deny 403 "This action requires admin privileges"
    else Next
  end.

(** The status code a middleware answers with, if it answers. *)
Definition answered (o : Outcome) : option nat :=
  match o with
  | Next => None
  | Respond r => Some (code r)
  end.

End authMiddleware.

(** ** controllers/bidController.js: [getBidHistory]

    [Bid.find({ auction }).populate('bidder', 'name email rating')
    .sort({ createdAt: -1 })].  The creation stamps are kept by the
    library; the sort is a parameter, of which the proofs only use that it
    permutes its input.  [populate] replaces the bidder id by the selected
    fields of the user stored under it, or by [null]. *)

Module bidHistory.

Record Profile : Type := mkProfile {
  name : string;
  email : string;
  rating : Q
}.

Record Entry : Type := mkEntry {
  auction : string;
  bidder : option (string * Profile);
  amount : Q
}.

Definition populate (users : gmap string Profile) (b : Bid.t) : Entry :=
  mkEntry (Bid.auction b)
          (p ← users !! Bid.bidder b; Some (Bid.bidder b, p))
          (Bid.amount b).

Inductive Answer : Type :=
| Failed (r : Response)
| History (total : nat) (entries : list Entry).   (* [{ success: true, total, bids }] *)

Section getBidHistory.

Variable ObjectId_isValid : string -> bool.
Variable sort_createdAt_desc : list Bid.t -> list Bid.t.

Definition getBidHistory (users : gmap string Profile) (auctionId : string)
    (find_throws : option Message) (s : Store) : Answer :=
  if negb (ObjectId_isValid auctionId) then
    Failed (bidController.message_only 400 (text "Invalid auction ID"))
  else
    match find_throws with
    | Some err => Failed (bidController.message_only 500 err)
    | None =>
      let found :=
        populate users
          <$> sort_createdAt_desc (filter (fun b => Bid.auction b = auctionId) (bids s)) in
      History (length found) found
    end.

End getBidHistory.

End bidHistory.

(** ** controllers/auctionController.js: the browse views

    What [browseAuctions] adds to each auction it lists, its [pagination]
    object, and the listing of [getEndingSoonAuctions]. *)

Module browse.

(** [{ ...auction, timeRemaining, isEndingSoon, status }]: the document
    with its status overridden, and the two added fields. *)
Record View : Type := mkView {
  doc : Auction.t;
  timeRemaining : Z;
  isEndingSoon : bool
}.

Definition withTime (now : Z) (auction : Auction.t) : View :=
  let timeRemaining := Auction.endTime auction - now in
  mkView
    (Auction.set_status
       (if bool_decide (timeRemaining <= 0) then Auction.ended
        else Auction.status auction) auction)
    (Z.max 0 timeRemaining)
    (bool_decide (0 < timeRemaining) && bool_decide (timeRemaining < 3600000)).

Record Pagination : Type := mkPagination {
  page : Z;
  limit : Z;
  total : Z;
  pages : Z;
  hasNext : bool;
  hasPrev : bool
}.

(** [Math.ceil(total / limit)]. *)
Definition pageCount (total limit : Z) : Z :=
  Qceiling (inject_Z total / inject_Z limit).

Definition pagination (page limit total : Z) : Pagination :=
  mkPagination page limit total (pageCount total limit)
               (bool_decide (page < pageCount total limit))
               (bool_decide (1 < page)).

(** [const skip = (parseInt(page) - 1) * parseInt(limit)]. *)
Definition skip (page limit : Z) : Z := (page - 1) * limit.

(** The filter of [getEndingSoonAuctions]:
    [{ status: 'active', endTime: { $gte: now, $lte: oneHourFromNow } }]. *)
Definition endsWithinTheHour (now : Z) (a : Auction.t) : bool :=
  bool_decide (Auction.status a = Auction.active)
  && bool_decide (now <= Auction.endTime a)
  && bool_decide (Auction.endTime a <= now + 60 * 60 * 1000).

Section getEndingSoonAuctions.

(** [.sort({ endTime: 1 })], a parameter like the sort of the history. *)
Variable sort_endTime : list (string * Auction.t) -> list (string * Auction.t).

Definition getEndingSoonAuctions (now : Z) (s : Store) : list (string * Auction.t) :=
  take 6 (sort_endTime
            (filter (fun ia => endsWithinTheHour now ia.2 = true)
                    (map_to_list (auctions s)))).

End getEndingSoonAuctions.

End browse.

(** ** components/CountdownTimer.js *)

Module CountdownTimer.

Record Time : Type := mkTime {
  days : Z;
  hours : Z;
  minutes : Z;
  seconds : Z;
  total : Z
}.

(** [x % y] on numbers: [x - y * trunc(x / y)]. *)
Definition js_trunc (x : Q) : Z :=
  if bool_decide (0 <= x)%Q then Qfloor x else Qceiling x.

Definition js_rem (x y : Q) : Q := (x - y * inject_Z (js_trunc (x / y)))%Q.

(** [formatTime(ms)]; [ms] is a difference of two [getTime()] values. *)
Definition formatTime (ms : Z) : Time :=
  if bool_decide (ms <= 0) then mkTime 0 0 0 0 0
  else
    let m := inject_Z ms in
    mkTime (Qfloor (m / (1000 * 60 * 60 * 24)))
           (Qfloor (js_rem (m / (1000 * 60 * 60)) 24))
           (Qfloor (js_rem (m / 1000 / 60) 60))
           (Qfloor (js_rem (m / 1000) 60))
           ms.

Definition num (n : Z) : Fragment := Num (inject_Z n).

Definition formatDisplay (time : Time) : Message :=
  if bool_decide (0 < days time) then
    [num (days time); Lit "d "; num (hours time); Lit "h "; num (minutes time); Lit "m"]
  else if bool_decide (0 < hours time) then
    [num (hours time); Lit "h "; num (minutes time); Lit "m "; num (seconds time); Lit "s"]
  else if bool_decide (0 < minutes time) then
    [num (minutes time); Lit "m "; num (seconds time); Lit "s"]
  else
    [num (seconds time); Lit "s"].

(** One run of [calculateTimeRemaining]: the new [isExpired], the new
    [timeRemaining], and whether [onExpire] is called; [isExpired] is the
    value the closure holds. *)
Definition calculateTimeRemaining (isExpired : bool) (now endTime : Z)
  : bool * Time * bool :=
  let remaining := endTime - now in
  if bool_decide (remaining <= 0) then (true, formatTime 0, negb isExpired)
  else (false, formatTime remaining, false).

Definition isEndingSoon (t : Time) : bool :=
  bool_decide (0 < total t) && bool_decide (total t < 3600000).

Definition isVeryUrgent (t : Time) : bool :=
  bool_decide (0 < total t) && bool_decide (total t < 300000).

(** The label of the chip that is rendered. *)
Definition label (isExpired : bool) (t : Time) : Message :=
  if isExpired then text "Auction Ended"
  else if isVeryUrgent t then Lit "Ending in " :: formatDisplay t
  else if isEndingSoon t then Lit "Ending in " :: formatDisplay t
  else formatDisplay t.

End CountdownTimer.

(** ** controllers/auctionController.js: [updateAuction]

    The fields of [req.body] are kept as JSON gives them: a string or a
    number, or nothing; [endTime] is the time [new Date(endTime)] denotes.
    Whether the two [findByIdAndUpdate] calls throw (validators included)
    is an input, and so is the [updatedAt] that the schema's [timestamps]
    option writes. *)

Module auctionUpdate.

Record Body : Type := mkBody {
  title : option string;
  description : option string;
  condition : option string;
  category : option string;
  startPrice : option Q;
  reservePrice : option Q;
  minIncrement : option Q;
  endTime : option Z
}.

Record Request : Type := mkRequest {
  id : string;         (* [req.params.id] *)
  userId : string;     (* [req.user._id.toString()] *)
  role : string;       (* [req.user.role] *)
  body : Body
}.

Record Env : Type := mkEnv {
  now : Z;                                 (* [new Date()] in [hasStarted] *)
  findById_throws : option Message;        (* [Auction.findById(id).populate('item')] *)
  item_update_throws : option Message;     (* [Item.findByIdAndUpdate] *)
  auction_update_throws : option Message;  (* [Auction.findByIdAndUpdate] *)
  stamp : Z                                (* [updatedAt] written by [timestamps] *)
}.

(** [if (x)] on a string and on a number: the value when it is truthy. *)
Definition given_string (x : option string) : option string :=
  match x with
  | Some v => if bool_decide (v = ""%string) then None else Some v
  | None => None
  end.

Definition given_number (x : option Q) : option Q :=
  match x with
  | Some v => if Qeq_bool v 0 then None else Some v
  | None => None
  end.

(** [if (endTime)]: the body carries the end time as a number of
    milliseconds, and [0] is not truthy. *)
Definition given_time (x : option Z) : option Z :=
  match x with
  | Some v => if bool_decide (v = 0) then None else Some v
  | None => None
  end.

Record ItemUpdates : Type := mkItemUpdates {
  set_title : option string;
  set_description : option string;
  set_condition : option string;
  set_category : option string
}.

Definition itemUpdates (b : Body) : ItemUpdates :=
  mkItemUpdates (given_string (title b)) (given_string (description b))
                (given_string (condition b)) (given_string (category b)).

(** [Object.keys(itemUpdates).length > 0]. *)
Definition has_keys (u : ItemUpdates) : bool :=
  bool_decide (is_Some (set_title u)) || bool_decide (is_Some (set_description u))
  || bool_decide (is_Some (set_condition u)) || bool_decide (is_Some (set_category u)).

Definition Item_patch (u : ItemUpdates) (i : Item.t) : Item.t :=
  Item.mk (default (Item.title i) (set_title u))
          (default (Item.description i) (set_description u))
          (Item.seller i)
          (default (Item.condition i) (set_condition u))
          (Item.status i)
          (default (Item.category i) (set_category u))
          (Item.views i).

Definition Item_findByIdAndUpdate (i : string) (u : ItemUpdates) (s : Store) : Store :=
  mkStore (auctions s) (bids s) (alter (Item_patch u) i (items s)).

Record AuctionUpdates : Type := mkAuctionUpdates {
  set_startPrice : option Q;
  set_reservePrice : option Q;
  set_minIncrement : option Q;
  set_endTime : option Z
}.

Definition Auction_patch (u : AuctionUpdates) (updatedAt : Z) (a : Auction.t) : Auction.t :=
  Auction.mk (Auction.item a) (Auction.seller a)
    (default (Auction.startPrice a) (set_startPrice u))
    (Auction.currentPrice a)
    (default (Auction.reservePrice a) (set_reservePrice u))
    (default (Auction.minIncrement a) (set_minIncrement u))
    (Auction.startTime a)
    (default (Auction.endTime a) (set_endTime u))
    (Auction.status a) (Auction.totalBids a) (Auction.watchers a) (Auction.winner a)
    (Auction.finalPrice a) (Auction.isApproved a) (Auction.approvedBy a)
    (Auction.approvedAt a) (Auction.createdAt a) updatedAt.

Definition Auction_findByIdAndUpdate (i : string) (u : AuctionUpdates) (updatedAt : Z)
    (s : Store) : Store :=
  mkStore (alter (Auction_patch u updatedAt) i (auctions s)) (bids s) (items s).

Inductive Answer : Type :=
| Failed (r : Response)
| Updated (data : option Auction.t) (item : option Item.t).
    (* [{ success: true, message: 'Auction updated successfully', data }],
       [data] with its item populated *)

Definition caught (err : Message) : Response :=
  mkResponse 500
    [("success"%string, JBool false);
     ("message"%string, JText (text "Failed to update auction"));
     ("error"%string, JText err)].

(** The first half of the handler's writes: the item, when the
    populated [auction.item] is there and some item field was given. *)
Definition update_item (req : Request) (env : Env) (auction : Auction.t) (s : Store)
  : Completion Store :=
  match items s !! Auction.item auction with
  | Some _ =>
    if has_keys (itemUpdates (body req)) then
      match item_update_throws env with
      | Some err => Throw err
      | None =>
        Return (Item_findByIdAndUpdate (Auction.item auction) (itemUpdates (body req)) s)
      end
    else Return s
  | None => Return s
  end.

(** [auctionUpdates], or nothing when the new end time is refused. *)
Definition auctionUpdates (req : Request) (auction : Auction.t) : option AuctionUpdates :=
  let startPrice' := given_number (startPrice (body req)) in
  let reservePrice' := given_number (reservePrice (body req)) in
  let minIncrement' := given_number (minIncrement (body req)) in
  match given_time (endTime (body req)) with
  | Some newEndTime =>
    if bool_decide (newEndTime <= Auction.startTime auction) then None
    else Some (mkAuctionUpdates startPrice' reservePrice' minIncrement' (Some newEndTime))
  | None => Some (mkAuctionUpdates startPrice' reservePrice' minIncrement' None)
  end.

(** [Auction.findByIdAndUpdate] is called with [runValidators].  The
    validator of [endTime] compares the new value with [this.startTime],
    and in an update [this] is not the stored document: the comparison
    fails for every end time.  In a world that [update_validated]
    describes, an update that carries an end time throws. *)
Definition update_validated (req : Request) (env : Env) : Prop :=
  is_Some (given_time (endTime (body req))) -> auction_update_throws env <> None.

(** The second half: the auction. *)
Definition update_auction (req : Request) (env : Env) (auction : Auction.t) (s : Store)
  : Store * Answer :=
  match auctionUpdates req auction with
  | None =>
    (s, Failed (auctionController.failure 400 "End time must be after start time"))
  | Some updates =>
    match auction_update_throws env with
    | Some err => (s, Failed (caught err))
    | None =>
      let s' := Auction_findByIdAndUpdate (id req) updates (stamp env) s in
      (s', Updated (auctions s' !! id req)
             (a ← auctions s' !! id req; items s' !! Auction.item a))
    end
  end.

Definition updateAuction (req : Request) (env : Env) (s : Store) : Store * Answer :=
  match findById_throws env with
  | Some err => (s, Failed (caught err))
  | None =>
    match auctions s !! id req with
    | None => (s, Failed (auctionController.failure 404 "Auction not found"))
    | Some auction =>
      if negb (bool_decide (Auction.seller auction = userId req))
         && negb (bool_decide (role req = "admin"%string)) then
        (s, Failed (auctionController.failure 403 "You can only update your own auctions"))
      else if Auction.hasStarted (now env) auction
              && negb (bool_decide (Auction.status auction = Auction.pending)) then
        (s, Failed (auctionController.failure 400
                      "Cannot update auction after it has started"))
      else
        match update_item req env auction s with
        | Throw err => (s, Failed (caught err))
        | Return s1 => update_auction req env auction s1
        end
    end
  end.

End auctionUpdate.

(** ** components/AuctionCard.js: [getImageUrl] *)

Module AuctionCard.

(** An element of [auction.item.images]; [url] is [None] when the field
    is missing. *)
Record Image : Type := mkImage {
  url : option string;
  isPrimary : bool
}.

(** [x || 'default-auction.jpg'] on a string that may be missing. *)
Definition or_default (x : option string) : string :=
  match x with
  | Some u => if bool_decide (u = ""%string) then "default-auction.jpg"%string else u
  | None => "default-auction.jpg"%string
  end.

(** [images] is [auction.item?.images], [None] when the item or its
    images are missing. *)
Definition getImageUrl (images : option (list Image)) : string :=
  match images with
  | Some (first :: rest) =>
    let primaryImage :=
      default first (List.find isPrimary (first :: rest)) in
    or_default (url primaryImage)
  | _ => "default-auction.jpg"%string
  end.

End AuctionCard.

(** ** Bookkeeping of bids

    [totalBids] against the bid log: [counted] when they agree for every
    stored auction, [undercounted] when no auction claims more bids than
    the log holds for it. *)

Definition counted (s : Store) : Prop :=
  forall (i : string) (a : Auction.t),
    auctions s !! i = Some a -> Auction.totalBids a = bidCount i s.

Definition undercounted (s : Store) : Prop :=
  forall (i : string) (a : Auction.t),
    auctions s !! i = Some a -> Auction.totalBids a <= bidCount i s.

(** No logged bid on a stored auction is by the seller of that auction. *)
Definition no_self_bids (s : Store) : Prop :=
  forall (b : Bid.t) (a : Auction.t),
    b ∈ bids s ->
    auctions s !! Bid.auction b = Some a ->
    Bid.bidder b <> Auction.seller a.

(** A history of bid requests served from store [s] in each of which the
    save of the auction runs the validator of [startTime], on a clock not
    behind the one that [isActive] read. *)
Definition bid_saves_validated (s : Store) (ops : list Op) : Prop :=
  Forall (fun op => match op with
                    | PlaceBid req env =>
                      forall a, auctions s !! bidController.auctionId req = Some a ->
                                exists clock, now env <= clock
                                              /\ save_validated clock env a
                    | CancelAuction _ _ => False
                    end) ops.

(** ** Sample data

    The auction of the specification's scenario: start price 10, increment
    2, open from time 1000 to time 2000, no bid yet. *)

Definition sample_isValid (id : string) : bool := Nat.eqb (String.length id) 24.

Definition auction1 : string := "650000000000000000000a01".
Definition item1 : string := "650000000000000000000b01".
Definition seller1 : string := "650000000000000000000c01".
Definition bidder1 : string := "650000000000000000000c02".

Definition sample_auction (st : Auction.Status) (n : Z) : Auction.t :=
  Auction.mk item1 seller1 10%Q 10%Q 0%Q 2%Q 1000 2000 st n
             [] None None false None None 900 900.

Definition sample_item : Item.t :=
  Item.mk "Vintage camera" "A camera in working order" seller1 "Good"
          Item.in_auction "Other" 0.

Definition sample_store (st : Auction.Status) (n : Z) : Store :=
  mkStore {[ auction1 := sample_auction st n ]} [] {[ item1 := sample_item ]}.

(** A request served at time [t] with every database call completing. *)
Definition calm (t : Z) : Env := mkEnv t (t + 1) None None None None.

(** A request served at time [t] in which the save of the auction is
    refused by the validator of [startTime]. *)
Definition refused (t : Z) : Env :=
  mkEnv t (t + 1) None None (Some (text "Start time must be in the future")) None.

(** An update that renames the item, raises the start price and asks for
    the end time [e] (the sample auction starts at 1000); and a world for
    it in which every database call completes. *)
Definition sample_body (e : Z) : auctionUpdate.Body :=
  auctionUpdate.mkBody (Some "Vintage camera, boxed"%string) None None None
                       (Some 50%Q) None None (Some e).

Definition quiet (t : Z) : auctionUpdate.Env :=
  auctionUpdate.mkEnv t None None None (t + 1).

(** The same update without an end time; and a world in which the update
    of the auction is refused by the validator of [endTime]. *)
Definition sample_body_prices : auctionUpdate.Body :=
  auctionUpdate.mkBody (Some "Vintage camera, boxed"%string) None None None
                       (Some 50%Q) None None None.

Definition unquiet (t : Z) : auctionUpdate.Env :=
  auctionUpdate.mkEnv t None None
    (Some (text "Validation failed: endTime: End time must be after start time"))
    (t + 1).

(** Auctions priced in decimals: [decimal n d] is the double that
    JavaScript stores for the literal [n / d]. *)
Definition decimal (n : Z) (d : positive) : Q := Number.round (n # d).

Definition priced_auction (price increment : Q) : Auction.t :=
  Auction.mk item1 seller1 price price 0%Q increment 1000 2000 Auction.active 0
             [] None None false None None 900 900.

(** * Properties *)

Import bidController.

(** Closed side conditions on the sample data. *)
Ltac concrete :=
  solve [ reflexivity
        | discriminate
        | vm_compute; discriminate
        | vm_compute; reflexivity
        | unfold calm, sample_auction; simpl; lia
        | unfold calm, sample_auction; simpl; split; [reflexivity | lia]
        | unfold Qle, Qlt; simpl; lia ].

(** ** The model methods *)

Lemma isActive_true (t : Z) (a : Auction.t) :
  Auction.isActive t a = true <->
  Auction.status a = Auction.active /\ Auction.startTime a <= t <= Auction.endTime a.
Proof.
  unfold Auction.isActive.
  rewrite !andb_true_iff, !bool_decide_eq_true. tauto.
Qed.

Lemma isActive_false (t : Z) (a : Auction.t) :
  Auction.isActive t a = false <->
  ~ (Auction.status a = Auction.active /\ Auction.startTime a <= t <= Auction.endTime a).
Proof.
  rewrite <- isActive_true. destruct (Auction.isActive t a); split; intros; done.
Qed.

(** When [Auction.placeBid] returns: exactly on an active auction and an
    amount above the current price and not below the sum, as the code
    computes it, of current price and increment. *)
Lemma Auction_placeBid_Return (t : Z) (amt : Q) (a a' : Auction.t) :
  Auction.placeBid t amt a = Return a' <->
  Auction.isActive t a = true
  /\ (Auction.currentPrice a < amt)%Q
  /\ (Number.add (Auction.currentPrice a) (Auction.minIncrement a) <= amt)%Q
  /\ a' = Auction.set_totalBids (Auction.totalBids a + 1) (Auction.set_currentPrice amt a).
Proof.
  unfold Auction.placeBid.
  destruct (Auction.isActive t a); simpl.
  - repeat case_bool_decide; split.
    all: try (intros H'; discriminate H').
    all: try (intros (_ & ? & ? & ?); exfalso; lra).
    + intros [= <-]. repeat split; trivial; lra.
    + intros (_ & _ & _ & ->). reflexivity.
  - split; [discriminate | intros [? _]; discriminate].
Qed.

(** What it throws, in the order of its checks. *)
Lemma Auction_placeBid_Throw (t : Z) (amt : Q) (a : Auction.t) (m : Message) :
  Auction.placeBid t amt a = Throw m <->
  (Auction.isActive t a = false /\ m = text "Auction is not active")
  \/ (Auction.isActive t a = true /\ (amt <= Auction.currentPrice a)%Q
      /\ m = text "Bid must be higher than current price")
  \/ (Auction.isActive t a = true /\ (Auction.currentPrice a < amt)%Q
      /\ (amt < Number.add (Auction.currentPrice a) (Auction.minIncrement a))%Q
      /\ m = [Lit "Bid must be at least "; Num (Auction.minIncrement a); Lit " higher"]).
Proof.
  unfold Auction.placeBid.
  destruct (Auction.isActive t a); simpl; repeat case_bool_decide; split.
  all: try (intros [= <-]); try (intros H'; discriminate H').
  all: try (intros [(? & ?)|[(? & ? & ?)|(? & ? & ? & ?)]]; subst;
            try discriminate; try reflexivity; exfalso; lra).
  all: try (right; left; repeat split; trivial; lra).
  all: try (right; right; repeat split; trivial; lra).
  all: try (left; split; reflexivity).
Qed.

(** ** The bid controller, path by path *)

Section placeBid_paths.

Variable isValid : string -> bool.
Variables (req : Request) (env : Env) (s : Store) (a : Auction.t).
Hypothesis Hvalid : isValid (auctionId req) = true.
Hypothesis Hfind : findById_throws env = None.
Hypothesis Hfound : auctions s !! auctionId req = Some a.

Lemma placeBid_found :
  placeBid isValid req env s =
  if bool_decide (Auction.seller a = userId req) then
    (s, message_only 400 (text "You cannot bid on your own auction"))
  else
    match Auction.placeBid (now env) (amount req) a with
    | Throw err => (s, message_only 400 err)
    | Return a' =>
      match create_throws env with
      | Some err => (s, message_only 500 err)
      | None =>
        let bid := Bid.mk (auctionId req) (userId req) (amount req) in
        match save_throws env with
        | Some err => (Bid_create bid s, message_only 500 err)
        | None =>
          (Auction_save (dateNow env) (auctionId req) a' (Bid_create bid s),
           mkResponse 201
             [("success"%string, JBool true);
              ("message"%string, JText (text "Bid placed successfully"));
              ("bid"%string, JBid bid);
              ("currentPrice"%string, JNumber (Auction.currentPrice a'));
              ("totalBids"%string, JCount (Auction.totalBids a'))])
        end
      end
    end.
Proof.
  unfold placeBid. rewrite Hvalid, Hfind, Hfound. reflexivity.
Qed.

Lemma placeBid_self :
  Auction.seller a = userId req ->
  placeBid isValid req env s =
  (s, message_only 400 (text "You cannot bid on your own auction")).
Proof.
  intros Hs. rewrite placeBid_found. rewrite bool_decide_eq_true_2; done.
Qed.

Lemma placeBid_thrown (m : Message) :
  Auction.seller a <> userId req ->
  Auction.placeBid (now env) (amount req) a = Throw m ->
  placeBid isValid req env s = (s, message_only 400 m).
Proof.
  intros Hs Ht. rewrite placeBid_found, bool_decide_eq_false_2, Ht; done.
Qed.

End placeBid_paths.

(** Every way a bid request can end: answered with a lone message and a
    code other than 201, the database as it was or with the bid document
    alone added; or answered 201 with bid and auction both written. *)
Lemma placeBid_inv (isValid : string -> bool) (req : Request) (env : Env) (s : Store) :
  (exists c m,
      (placeBid isValid req env s).2 = message_only c m
      /\ c <> 201%nat
      /\ ((placeBid isValid req env s).1 = s
          \/ (placeBid isValid req env s).1
             = Bid_create (Bid.mk (auctionId req) (userId req) (amount req)) s))
  \/ (exists a a',
      auctions s !! auctionId req = Some a
      /\ Auction.seller a <> userId req
      /\ Auction.placeBid (now env) (amount req) a = Return a'
      /\ (placeBid isValid req env s).1
         = Auction_save (dateNow env) (auctionId req) a'
             (Bid_create (Bid.mk (auctionId req) (userId req) (amount req)) s)
      /\ code (placeBid isValid req env s).2 = 201%nat).
Proof.
  unfold placeBid.
  destruct (isValid (auctionId req)); simpl;
    [| left; eexists _, _; repeat split; [discriminate | by left]].
  destruct (findById_throws env);
    [left; eexists _, _; repeat split; [discriminate | by left] |].
  destruct (auctions s !! auctionId req) as [a|] eqn:Ha;
    [| left; eexists _, _; repeat split; [discriminate | by left]].
  case_bool_decide as Hself;
    [left; eexists _, _; repeat split; [discriminate | by left] |].
  destruct (Auction.placeBid (now env) (amount req) a) as [a'|m] eqn:Hp;
    [| left; eexists _, _; repeat split; [discriminate | by left]].
  destruct (create_throws env);
    [left; eexists _, _; repeat split; [discriminate | by left] |].
  destruct (save_throws env);
    [left; eexists _, _; repeat split; [discriminate | by right] |].
  right. exists a, a'. repeat split; done.
Qed.

(** A bid request that writes has passed every check; it then either
    stores the bid alone (the save threw) or the bid and the auction. *)
Lemma placeBid_writes (isValid : string -> bool) (req : Request) (env : Env) (s : Store) :
  ((placeBid isValid req env s).1 = s
   /\ code (placeBid isValid req env s).2 <> 201%nat)
  \/ (exists a a',
       auctions s !! auctionId req = Some a
       /\ Auction.seller a <> userId req
       /\ Auction.placeBid (now env) (amount req) a = Return a'
       /\ (((placeBid isValid req env s).1
            = Bid_create (Bid.mk (auctionId req) (userId req) (amount req)) s
            /\ code (placeBid isValid req env s).2 = 500%nat
            /\ save_throws env <> None)
           \/ ((placeBid isValid req env s).1
               = Auction_save (dateNow env) (auctionId req) a'
                   (Bid_create (Bid.mk (auctionId req) (userId req) (amount req)) s)
               /\ code (placeBid isValid req env s).2 = 201%nat
               /\ save_throws env = None))).
Proof.
  unfold placeBid.
  destruct (isValid (auctionId req)); simpl; [|by left].
  destruct (findById_throws env); [by left|].
  destruct (auctions s !! auctionId req) as [a|] eqn:Ha; [|by left].
  case_bool_decide as Hself; [by left|].
  destruct (Auction.placeBid (now env) (amount req) a) as [a'|m] eqn:Hp; [|by left].
  destruct (create_throws env); [by left|].
  right. exists a, a'. repeat split; try done.
  destruct (save_throws env); [left | right]; done.
Qed.

(** ** C1: an admissible bid is not accepted *)

(** C1, where the code departs from it.  The handler means to accept a
    bid on an active auction by a bidder who is not the seller with
    [amount >= currentPrice + minIncrement], and answers 201 when the save
    of the auction completes.  But [save] runs the schema's validators
    again, and the one of [startTime] asks for a start time in the future:
    with a validator that reads the clock no earlier than [isActive] did,
    no bid is ever answered 201 and the stored auction is never changed;
    a bid that passes every check is logged and answered 500. *)
Theorem placeBid_save_refused (isValid : string -> bool)
    (req : Request) (env : Env) (s : Store) (a : Auction.t) (clock : Z) :
  auctions s !! auctionId req = Some a ->
  now env <= clock ->
  save_validated clock env a ->
  code (placeBid isValid req env s).2 <> 201%nat
  /\ auctions (placeBid isValid req env s).1 !! auctionId req = Some a
  /\ (isValid (auctionId req) = true ->
      findById_throws env = None ->
      create_throws env = None ->
      Auction.status a = Auction.active
      /\ Auction.startTime a <= now env <= Auction.endTime a ->
      userId req <> Auction.seller a ->
      (Auction.currentPrice a < amount req)%Q ->
      (Number.add (Auction.currentPrice a) (Auction.minIncrement a) <= amount req)%Q ->
      exists err,
        save_throws env = Some err
        /\ placeBid isValid req env s
           = (Bid_create (Bid.mk (auctionId req) (userId req) (amount req)) s,
              message_only 500 err)).
Proof.
  intros Ha Hclock Hsave.
  assert (Hstarted : Auction.isActive (now env) a = true -> save_throws env <> None).
  { intros Hact Hnone. apply isActive_true in Hact as (_ & Hstart & _).
    specialize (Hsave Hnone). unfold Auction.startTime_validator in Hsave.
    apply bool_decide_eq_true in Hsave. lia. }
  assert (Hno : code (placeBid isValid req env s).2 <> 201%nat
                /\ auctions (placeBid isValid req env s).1 !! auctionId req = Some a).
  { destruct (placeBid_writes isValid req env s)
      as [[-> Hc] | (b & b' & Hb & _ & Hp & [(-> & -> & _) | (_ & _ & Hnone)])].
    - done.
    - done.
    - exfalso. assert (b = a) as -> by congruence.
      apply Auction_placeBid_Return in Hp as (Hact & _). by apply Hstarted. }
  destruct Hno as [Hcode Hkept]. split; [done|]. split; [done|].
  intros Hv Hf Hc Hact Hne Hgt Hge.
  assert (Hact' : Auction.isActive (now env) a = true) by by apply isActive_true.
  destruct (save_throws env) as [err|] eqn:Hs; [|by destruct (Hstarted Hact')].
  exists err. split; [done|].
  rewrite (placeBid_found isValid req env s a Hv Hf Ha), Hc, Hs.
  rewrite bool_decide_eq_false_2 by congruence.
  assert (Hp : Auction.placeBid (now env) (amount req) a
               = Return (Auction.set_totalBids (Auction.totalBids a + 1)
                           (Auction.set_currentPrice (amount req) a)))
    by by apply Auction_placeBid_Return.
  by rewrite Hp.
Qed.

Lemma placeBid_save_refused_witness :
  code (placeBid sample_isValid (mkRequest auction1 bidder1 12%Q)
          (mkEnv 1500 1501 None None
             (Some (text "Start time must be in the future")) None)
          (sample_store Auction.active 0)).2 <> 201%nat
  /\ placeBid sample_isValid (mkRequest auction1 bidder1 12%Q)
       (mkEnv 1500 1501 None None
          (Some (text "Start time must be in the future")) None)
       (sample_store Auction.active 0)
     = (Bid_create (Bid.mk auction1 bidder1 12%Q) (sample_store Auction.active 0),
        message_only 500 (text "Start time must be in the future")).
Proof.
  destruct (placeBid_save_refused sample_isValid (mkRequest auction1 bidder1 12%Q)
              (mkEnv 1500 1501 None None
                 (Some (text "Start time must be in the future")) None)
              (sample_store Auction.active 0) (sample_auction Auction.active 0) 1500)
    as (Hcode & _ & Hlogged).
  - reflexivity.
  - simpl. lia.
  - intros Hnone. discriminate Hnone.
  - split; [exact Hcode|].
    assert (Hpass : exists err,
      save_throws (mkEnv 1500 1501 None None
                     (Some (text "Start time must be in the future")) None) = Some err
      /\ placeBid sample_isValid (mkRequest auction1 bidder1 12%Q)
           (mkEnv 1500 1501 None None
              (Some (text "Start time must be in the future")) None)
           (sample_store Auction.active 0)
         = (Bid_create (Bid.mk auction1 bidder1 12%Q) (sample_store Auction.active 0),
            message_only 500 err)) by (apply Hlogged; concrete).
    destruct Hpass as (err & Herr & Heq).
    simpl in Herr. injection Herr as <-. exact Heq.
Defined.

(** ** C6: the seller cannot bid *)

(** C6. When the bidder is the auction's seller the answer is the self-bid
    rejection whatever the amount, and the database is left as it was: the
    auction keeps its [currentPrice] and [totalBids], and the bid log gets
    no record. *)
Theorem placeBid_seller_rejected (isValid : string -> bool)
    (req : Request) (env : Env) (s : Store) (a : Auction.t) :
  isValid (auctionId req) = true ->
  findById_throws env = None ->
  auctions s !! auctionId req = Some a ->
  userId req = Auction.seller a ->
  (placeBid isValid req env s).2
    = message_only 400 (text "You cannot bid on your own auction")
  /\ (placeBid isValid req env s).1 = s
  /\ auctions (placeBid isValid req env s).1 !! auctionId req = Some a
  /\ bids (placeBid isValid req env s).1 = bids s.
Proof.
  intros Hv Hf Ha Hu.
  rewrite (placeBid_self isValid req env s a Hv Hf Ha (eq_sym Hu)). simpl. auto.
Qed.

Lemma placeBid_seller_rejected_witness :
  (placeBid sample_isValid (mkRequest auction1 seller1 500%Q) (calm 1500)
     (sample_store Auction.active 0)).2
    = message_only 400 (text "You cannot bid on your own auction")
  /\ (placeBid sample_isValid (mkRequest auction1 seller1 500%Q) (calm 1500)
        (sample_store Auction.active 0)).1 = sample_store Auction.active 0.
Proof.
  destruct (placeBid_seller_rejected sample_isValid
              (mkRequest auction1 seller1 500%Q) (calm 1500)
              (sample_store Auction.active 0) (sample_auction Auction.active 0))
    as (Hr & Hs & _); try reflexivity.
  split; assumption.
Defined.

(** ** C10: ids that name no auction *)

(** C10. An auction id that is not a valid ObjectId is answered 400
    "Invalid auction ID"; a valid id under which no auction is stored is
    answered 404 "Auction not found"; either way the database is left as
    it was. *)
Theorem placeBid_no_auction (isValid : string -> bool)
    (req : Request) (env : Env) (s : Store) :
  (isValid (auctionId req) = false ->
   placeBid isValid req env s = (s, message_only 400 (text "Invalid auction ID")))
  /\ (isValid (auctionId req) = true ->
      findById_throws env = None ->
      auctions s !! auctionId req = None ->
      placeBid isValid req env s = (s, message_only 404 (text "Auction not found"))).
Proof.
  unfold placeBid. split.
  - intros ->. reflexivity.
  - intros -> -> ->. reflexivity.
Qed.

Lemma placeBid_no_auction_witness :
  placeBid sample_isValid (mkRequest "not-an-id" bidder1 12%Q) (calm 1500)
    (sample_store Auction.active 0)
  = (sample_store Auction.active 0, message_only 400 (text "Invalid auction ID"))
  /\ placeBid sample_isValid (mkRequest item1 bidder1 12%Q) (calm 1500)
       (sample_store Auction.active 0)
     = (sample_store Auction.active 0, message_only 404 (text "Auction not found")).
Proof.
  split.
  - apply (placeBid_no_auction sample_isValid
             (mkRequest "not-an-id" bidder1 12%Q) (calm 1500)
             (sample_store Auction.active 0)).
    reflexivity.
  - apply (placeBid_no_auction sample_isValid
             (mkRequest item1 bidder1 12%Q) (calm 1500)
             (sample_store Auction.active 0)); reflexivity.
Defined.

(** ** C2: the price only goes up *)

(** One bid: every stored auction is still stored, with a price that is
    not lower; the auction of an accepted bid has a higher price. *)
Lemma placeBid_price (isValid : string -> bool)
    (req : Request) (env : Env) (s : Store) (i : string) (a : Auction.t) :
  auctions s !! i = Some a ->
  exists a', auctions (placeBid isValid req env s).1 !! i = Some a'
    /\ (Auction.currentPrice a <= Auction.currentPrice a')%Q
    /\ (code (placeBid isValid req env s).2 = 201%nat -> i = auctionId req ->
        (Auction.currentPrice a < Auction.currentPrice a')%Q).
Proof.
  intros Ha.
  destruct (placeBid_inv isValid req env s)
    as [(c & m & -> & Hc & [-> | ->]) | (b & b' & Hb & _ & Hp & -> & ->)].
  - exists a. repeat split; [done | lra | simpl; congruence].
  - exists a. repeat split; [done | lra | simpl; congruence].
  - apply Auction_placeBid_Return in Hp as (_ & Hgt & _ & ->).
    simpl. destruct (decide (auctionId req = i)) as [<- | Hne].
    + rewrite lookup_insert_eq. eexists. split; [reflexivity|].
      assert (b = a) as -> by congruence. simpl. split; [lra | auto].
    + rewrite lookup_insert_ne by done. exists a.
      repeat split; [done | lra | congruence].
Qed.

(** Cancelling keeps every stored auction stored and leaves its price. *)
Lemma cancelAuction_price (req : auctionController.Request) (env : Env)
    (s : Store) (i : string) (a : Auction.t) :
  auctions s !! i = Some a ->
  exists a', auctions (auctionController.cancelAuction req env s).1 !! i = Some a'
    /\ Auction.currentPrice a' = Auction.currentPrice a.
Proof.
  intros Ha. unfold auctionController.cancelAuction.
  destruct (findById_throws env); [by exists a|].
  destruct (auctions s !! auctionController.id req) as [b|] eqn:Hb; [|by exists a].
  destruct (_ && _); [by exists a|].
  case_bool_decide; [by exists a|].
  destruct (save_throws env); [by exists a|].
  assert (Hi : exists a',
    <[auctionController.id req :=
        Auction.pre_save (dateNow env) (Auction.set_status Auction.cancelled b)]>
      (auctions s) !! i = Some a'
    /\ Auction.currentPrice a' = Auction.currentPrice a).
  { destruct (decide (auctionController.id req = i)) as [<- | Hne].
    - rewrite lookup_insert_eq. eexists. split; [reflexivity|].
      assert (b = a) as -> by congruence. reflexivity.
    - rewrite lookup_insert_ne by done. by exists a. }
  destruct (findByIdAndUpdate_throws env); exact Hi.
Qed.

Lemma committedPrices_sorted (isValid : string -> bool) (i : string)
    (subs : list Submission) :
  forall (s : Store) (a : Auction.t) (p : Q),
    auctions s !! i = Some a ->
    (p <= Auction.currentPrice a)%Q ->
    Forall (Qlt p) (committedPrices isValid i subs s)
    /\ StronglySorted Qlt (committedPrices isValid i subs s).
Proof.
  induction subs as [|[[user amt] env] rest IH]; intros s a p Ha Hp.
  - split; constructor.
  - simpl.
    destruct (placeBid_price isValid (mkRequest i user amt) env s i a Ha)
      as (a' & Ha' & Hle & Hlt).
    destruct (IH _ a' p Ha') as [Hall Hsorted]; [lra|].
    case_bool_decide as Hcode; [|by split].
    rewrite Ha'. specialize (Hlt Hcode eq_refl).
    destruct (IH _ a' (Auction.currentPrice a') Ha') as [Hall' _]; [lra|].
    split; constructor; trivial. lra.
Qed.

Lemma step_price (isValid : string -> bool) (op : Op)
    (s : Store) (i : string) (a : Auction.t) :
  auctions s !! i = Some a ->
  exists a', auctions (step isValid s op) !! i = Some a'
    /\ (Auction.currentPrice a <= Auction.currentPrice a')%Q.
Proof.
  intros Ha. destruct op as [req env | req env]; simpl.
  - destruct (placeBid_price isValid req env s i a Ha) as (a' & ? & ? & _).
    by exists a'.
  - destruct (cancelAuction_price req env s i a Ha) as (a' & ? & Heq).
    exists a'. split; [done | rewrite Heq; lra].
Qed.

Lemma run_price (isValid : string -> bool) (ops : list Op) :
  forall (s : Store) (i : string) (a : Auction.t),
    auctions s !! i = Some a ->
    exists a', auctions (run isValid ops s) !! i = Some a'
      /\ (Auction.currentPrice a <= Auction.currentPrice a')%Q.
Proof.
  induction ops as [|op ops IH]; intros s i a Ha; simpl.
  - exists a. split; [done | lra].
  - destruct (step_price isValid op s i a Ha) as (a1 & Ha1 & Hle1).
    destruct (IH _ i a1 Ha1) as (a' & Ha' & Hle').
    exists a'. split; [done | lra].
Qed.

(** C2. For every sequence of bid submissions to one auction, each served
    on the database the previous one left, the committed values of
    [currentPrice] form a strictly increasing sequence that starts above
    the price the auction had; and over any history of the engine's
    operations (bids and cancellations, on this or on other auctions) the
    auction stays stored and its [currentPrice] never ends lower than it
    was. *)
Theorem currentPrice_increases (isValid : string -> bool)
    (s : Store) (i : string) (a : Auction.t) :
  auctions s !! i = Some a ->
  (forall subs : list Submission,
      StronglySorted Qlt (Auction.currentPrice a :: committedPrices isValid i subs s))
  /\ (forall ops : list Op,
      exists a', auctions (run isValid ops s) !! i = Some a'
        /\ (Auction.currentPrice a <= Auction.currentPrice a')%Q).
Proof.
  intros Ha. split.
  - intros subs.
    destruct (committedPrices_sorted isValid i subs s a (Auction.currentPrice a) Ha)
      as [Hall Hsorted]; [lra|].
    by constructor.
  - intros ops. by apply run_price.
Qed.

(** The specification's scenario: 11 is refused, 12 and 15 are accepted,
    a second 15 is refused. *)
Example committedPrices_scenario :
  committedPrices sample_isValid auction1
    [(bidder1, 11%Q, calm 1100); (bidder1, 12%Q, calm 1200);
     (bidder1, 15%Q, calm 1300); (bidder1, 15%Q, calm 1400)]
    (sample_store Auction.active 0)
  = [12%Q; 15%Q].
Proof. vm_compute. reflexivity. Qed.

Lemma currentPrice_increases_witness :
  StronglySorted Qlt
    (10%Q :: committedPrices sample_isValid auction1
               [(bidder1, 11%Q, calm 1100); (bidder1, 12%Q, calm 1200);
                (bidder1, 15%Q, calm 1300); (bidder1, 15%Q, calm 1400)]
               (sample_store Auction.active 0))
  /\ exists a',
       auctions (run sample_isValid
                   [PlaceBid (mkRequest auction1 bidder1 12%Q) (calm 1200);
                    CancelAuction
                      (auctionController.mkRequest auction1 seller1 "seller")
                      (calm 1300);
                    PlaceBid (mkRequest auction1 bidder1 15%Q) (calm 1400)]
                   (sample_store Auction.active 0))
         !! auction1 = Some a'
       /\ (10 <= Auction.currentPrice a')%Q.
Proof.
  destruct (currentPrice_increases sample_isValid (sample_store Auction.active 0)
              auction1 (sample_auction Auction.active 0))
    as [Hseq Hop]; [concrete|].
  split; [apply Hseq | apply Hop].
Defined.

(** ** C3: the order of the checks *)




(** ** C5: a bid after the end time *)

(** C5, as the code has it.  A bid on an auction whose status is still
    [active] but whose end time has passed is never accepted: the seller
    gets the self-bid rejection, anyone else "Auction is not active".  The
    request writes nothing: the auction stays stored as it was, status
    [active] included. *)
Theorem placeBid_late (isValid : string -> bool)
    (req : Request) (env : Env) (s : Store) (a : Auction.t) :
  isValid (auctionId req) = true ->
  findById_throws env = None ->
  auctions s !! auctionId req = Some a ->
  Auction.status a = Auction.active ->
  Auction.endTime a < now env ->
  placeBid isValid req env s
  = (s, message_only 400
          (if bool_decide (Auction.seller a = userId req)
           then text "You cannot bid on your own auction"
           else text "Auction is not active"))
  /\ code (placeBid isValid req env s).2 <> 201%nat
  /\ auctions (placeBid isValid req env s).1 !! auctionId req = Some a.
Proof.
  intros Hv Hf Ha Hst Hlate.
  assert (Heq : placeBid isValid req env s
    = (s, message_only 400
            (if bool_decide (Auction.seller a = userId req)
             then text "You cannot bid on your own auction"
             else text "Auction is not active"))).
  { case_bool_decide as Hself.
    - by apply (placeBid_self isValid req env s a).
    - apply (placeBid_thrown isValid req env s a); try done.
      apply Auction_placeBid_Throw. left. split; [|done].
      apply isActive_false. lia. }
  rewrite Heq. simpl. repeat split; [discriminate | done].
Qed.

Lemma placeBid_late_witness :
  placeBid sample_isValid (mkRequest auction1 bidder1 12%Q) (calm 2500)
    (sample_store Auction.active 0)
  = (sample_store Auction.active 0, message_only 400 (text "Auction is not active")).
Proof.
  apply (placeBid_late sample_isValid (mkRequest auction1 bidder1 12%Q) (calm 2500)
           (sample_store Auction.active 0) (sample_auction Auction.active 0));
    concrete.
Defined.

(** After the late bid the stored status is still [active]: the request
    has not moved the auction to [ended] or [sold]. *)
Lemma placeBid_late_counterexample :
  Auction.status <$>
    auctions (placeBid sample_isValid (mkRequest auction1 bidder1 12%Q) (calm 2500)
                (sample_store Auction.active 0)).1 !! auction1
  = Some Auction.active.
Proof. reflexivity. Qed.

(** ** C7: what can be cancelled *)

(** C7, as the code has it.  [cancelAuction] refuses every auction with
    [totalBids > 0] and then writes nothing.  It does not look at the
    status: asked by the seller or an admin, an auction without bids whose
    save completes is stored as [cancelled] whatever its status was, so a
    [draft] cancelled before its start time becomes [cancelled].  The save
    runs the validator of [startTime] again: once the start time has
    passed it does not complete, the request is not answered with success
    and the auction is left as it was, as are all auctions that have
    started, the [ended] and [sold] ones among them. *)
Theorem cancelAuction_guard (req : auctionController.Request) (env : Env)
    (s : Store) (a : Auction.t) (clock : Z) :
  findById_throws env = None ->
  auctions s !! auctionController.id req = Some a ->
  (0 < Auction.totalBids a ->
   (auctionController.cancelAuction req env s).1 = s
   /\ ((auctionController.cancelAuction req env s).2
         = auctionController.failure 403 "You can only cancel your own auctions"
       \/ (auctionController.cancelAuction req env s).2
         = auctionController.failure 400 "Cannot cancel auction with existing bids"))
  /\ (Auction.totalBids a <= 0 ->
      Auction.seller a = auctionController.userId req
      \/ auctionController.role req = "admin"%string ->
      save_throws env = None ->
      auctions (auctionController.cancelAuction req env s).1 !! auctionController.id req
      = Some (Auction.pre_save (dateNow env)
                (Auction.set_status Auction.cancelled a))
      /\ Auction.status (Auction.pre_save (dateNow env)
                           (Auction.set_status Auction.cancelled a))
         = Auction.cancelled)
  /\ (save_validated clock env a ->
      Auction.startTime a <= clock ->
      (auctionController.cancelAuction req env s).1 = s
      /\ code (auctionController.cancelAuction req env s).2 <> 200%nat
      /\ Auction.status <$> auctions (auctionController.cancelAuction req env s).1
                              !! auctionController.id req
         = Some (Auction.status a)).
Proof.
  intros Hf Ha. unfold auctionController.cancelAuction. rewrite Hf, Ha.
  split; [|split].
  - intros Hbids. destruct (_ && _); [by auto|].
    rewrite bool_decide_eq_true_2 by done. by auto.
  - intros Hbids Hown ->.
    assert (negb (bool_decide (Auction.seller a = auctionController.userId req))
            && negb (bool_decide (auctionController.role req = "admin"%string))
            = false) as ->.
    { apply andb_false_iff. destruct Hown as [Ho|Ho];
        [left | right]; by rewrite bool_decide_eq_true_2. }
    rewrite bool_decide_eq_false_2 by lia.
    split; [|reflexivity].
    destruct (findByIdAndUpdate_throws env); simpl; apply lookup_insert_eq.
  - intros Hsave Hstarted.
    assert (Hthrows : save_throws env <> None).
    { intros Hnone. specialize (Hsave Hnone).
      apply bool_decide_eq_true in Hsave. lia. }
    destruct (negb (bool_decide (Auction.seller a = auctionController.userId req))
              && negb (bool_decide (auctionController.role req = "admin"%string)));
      [simpl; by rewrite Ha|].
    destruct (bool_decide (0 < Auction.totalBids a)); [simpl; by rewrite Ha|].
    destruct (save_throws env); [simpl; by rewrite Ha | done].
Qed.

Lemma cancelAuction_guard_witness :
  (auctionController.cancelAuction
     (auctionController.mkRequest auction1 seller1 "seller") (calm 1500)
     (sample_store Auction.active 3)).1 = sample_store Auction.active 3
  /\ auctions (auctionController.cancelAuction
                 (auctionController.mkRequest auction1 seller1 "seller") (calm 500)
                 (sample_store Auction.pending 0)).1 !! auction1
     = Some (Auction.pre_save 501
               (Auction.set_status Auction.cancelled (sample_auction Auction.pending 0)))
  /\ Auction.status <$>
       auctions (auctionController.cancelAuction
                   (auctionController.mkRequest auction1 seller1 "seller")
                   (mkEnv 2500 2501 None None
                      (Some (text "Start time must be in the future")) None)
                   (sample_store Auction.sold 0)).1 !! auction1
     = Some Auction.sold.
Proof.
  split; [|split].
  - destruct (cancelAuction_guard
                (auctionController.mkRequest auction1 seller1 "seller") (calm 1500)
                (sample_store Auction.active 3) (sample_auction Auction.active 3) 1500)
      as (Hbids & _ & _); [concrete | concrete |].
    apply Hbids. concrete.
  - destruct (cancelAuction_guard
                (auctionController.mkRequest auction1 seller1 "seller") (calm 500)
                (sample_store Auction.pending 0) (sample_auction Auction.pending 0) 500)
      as (_ & Hnone & _); [concrete | concrete |].
    apply Hnone; [concrete | left; concrete | concrete].
  - destruct (cancelAuction_guard
                (auctionController.mkRequest auction1 seller1 "seller")
                (mkEnv 2500 2501 None None
                   (Some (text "Start time must be in the future")) None)
                (sample_store Auction.sold 0) (sample_auction Auction.sold 0) 2501)
      as (_ & _ & Hstarted); [concrete | concrete |].
    apply Hstarted; [intros Hnone; discriminate Hnone | concrete].
Defined.

(** A draft without bids, cancelled by its seller before the start time,
    is stored as [cancelled]. *)
Lemma cancelAuction_guard_counterexample :
  Auction.status <$> auctions (sample_store Auction.draft 0) !! auction1
  = Some Auction.draft
  /\ Auction.status <$>
       auctions (auctionController.cancelAuction
                   (auctionController.mkRequest auction1 seller1 "seller") (calm 500)
                   (sample_store Auction.draft 0)).1 !! auction1
     = Some Auction.cancelled.
Proof. split; reflexivity. Qed.

(** ** C8: what a rejection carries *)

(** C8, as the code has it.  Every answer to a bid request other than the
    201 of an accepted bid is an object with the single field [message];
    it has no [reason] and no [minimumNextBid].  The message names the rule
    that failed: a bid not above the current price gets "Bid must be higher
    than current price", a bid above it but below the sum of current price
    and increment, the sum as the code computes it on doubles, gets a
    message that quotes [minIncrement]. *)
Theorem placeBid_rejection_body (isValid : string -> bool)
    (req : Request) (env : Env) (s : Store) (a : Auction.t) :
  (code (placeBid isValid req env s).2 <> 201%nat ->
   exists m, body (placeBid isValid req env s).2 = [("message"%string, JText m)]
     /\ field "reason" (body (placeBid isValid req env s).2) = None
     /\ field "minimumNextBid" (body (placeBid isValid req env s).2) = None)
  /\ (isValid (auctionId req) = true ->
      findById_throws env = None ->
      auctions s !! auctionId req = Some a ->
      userId req <> Auction.seller a ->
      Auction.isActive (now env) a = true ->
      ((amount req <= Auction.currentPrice a)%Q ->
       (placeBid isValid req env s).2
       = message_only 400 (text "Bid must be higher than current price"))
      /\ ((Auction.currentPrice a < amount req)%Q ->
          (amount req < Number.add (Auction.currentPrice a) (Auction.minIncrement a))%Q ->
          (placeBid isValid req env s).2
          = message_only 400
              [Lit "Bid must be at least "; Num (Auction.minIncrement a);
               Lit " higher"])).
Proof.
  split.
  - intros Hcode.
    destruct (placeBid_inv isValid req env s)
      as [(c & m & Hr & _ & _) | (_ & _ & _ & _ & _ & _ & H201)]; [|done].
    rewrite Hr. by exists m.
  - intros Hv Hf Ha Hu Hact. split.
    + intros Hle. rewrite (placeBid_thrown isValid req env s a Hv Hf Ha
                             (text "Bid must be higher than current price")); try done.
      apply Auction_placeBid_Throw. right; left. done.
    + intros Hgt Hlt.
      rewrite (placeBid_thrown isValid req env s a Hv Hf Ha
                 [Lit "Bid must be at least "; Num (Auction.minIncrement a);
                  Lit " higher"]); try done.
      apply Auction_placeBid_Throw. right; right. done.
Qed.

Lemma placeBid_rejection_body_witness :
  (exists m,
      body (placeBid sample_isValid (mkRequest auction1 bidder1 10%Q) (calm 1500)
              (sample_store Auction.active 0)).2 = [("message"%string, JText m)]
      /\ field "reason"
           (body (placeBid sample_isValid (mkRequest auction1 bidder1 10%Q) (calm 1500)
                    (sample_store Auction.active 0)).2) = None
      /\ field "minimumNextBid"
           (body (placeBid sample_isValid (mkRequest auction1 bidder1 10%Q) (calm 1500)
                    (sample_store Auction.active 0)).2) = None)
  /\ (placeBid sample_isValid (mkRequest auction1 bidder1 10%Q) (calm 1500)
        (sample_store Auction.active 0)).2
     = message_only 400 (text "Bid must be higher than current price")
  /\ (placeBid sample_isValid (mkRequest auction1 bidder1 11%Q) (calm 1500)
        (sample_store Auction.active 0)).2
     = message_only 400 [Lit "Bid must be at least "; Num 2%Q; Lit " higher"].
Proof.
  split; [|split].
  - apply (placeBid_rejection_body sample_isValid
             (mkRequest auction1 bidder1 10%Q) (calm 1500)
             (sample_store Auction.active 0) (sample_auction Auction.active 0)).
    concrete.
  - apply (placeBid_rejection_body sample_isValid
             (mkRequest auction1 bidder1 10%Q) (calm 1500)
             (sample_store Auction.active 0) (sample_auction Auction.active 0));
      concrete.
  - apply (placeBid_rejection_body sample_isValid
             (mkRequest auction1 bidder1 11%Q) (calm 1500)
             (sample_store Auction.active 0) (sample_auction Auction.active 0));
      concrete.
Defined.

(** A bid of 10 against a current price of 10 and an increment of 2: the
    rejection has neither a [reason] nor a [minimumNextBid] (which would
    be 12). *)
Lemma placeBid_rejection_body_counterexample :
  (placeBid sample_isValid (mkRequest auction1 bidder1 10%Q) (calm 1500)
     (sample_store Auction.active 0)).2
  = mkResponse 400
      [("message"%string, JText (text "Bid must be higher than current price"))]
  /\ field "reason"
       (body (placeBid sample_isValid (mkRequest auction1 bidder1 10%Q) (calm 1500)
                (sample_store Auction.active 0)).2) = None
  /\ field "minimumNextBid"
       (body (placeBid sample_isValid (mkRequest auction1 bidder1 10%Q) (calm 1500)
                (sample_store Auction.active 0)).2) = None.
Proof. split; [reflexivity | split; reflexivity]. Qed.

(** ** C9: what a cancellation writes *)

(** C9. When [cancelAuction] answers with success, the auction is stored
    with status [cancelled] and with its prices, increment, start and end
    time and [totalBids] as they were, and the item it refers to, when
    stored, has status [available] and its other fields as they were; no
    other item is touched. *)
Theorem cancelAuction_success (req : auctionController.Request) (env : Env) (s : Store) :
  code (auctionController.cancelAuction req env s).2 = 200%nat ->
  exists a a',
    auctions s !! auctionController.id req = Some a
    /\ auctions (auctionController.cancelAuction req env s).1 !! auctionController.id req
       = Some a'
    /\ Auction.status a' = Auction.cancelled
    /\ (forall it,
          items s !! Auction.item a = Some it ->
          exists it',
            items (auctionController.cancelAuction req env s).1 !! Auction.item a
            = Some it'
            /\ Item.status it' = Item.available
            /\ Item.title it' = Item.title it
            /\ Item.description it' = Item.description it
            /\ Item.seller it' = Item.seller it
            /\ Item.condition it' = Item.condition it
            /\ Item.category it' = Item.category it
            /\ Item.views it' = Item.views it)
    /\ (forall j,
          j <> Auction.item a \/ items s !! j = None ->
          items (auctionController.cancelAuction req env s).1 !! j = items s !! j)
    /\ Auction.startPrice a' = Auction.startPrice a
    /\ Auction.currentPrice a' = Auction.currentPrice a
    /\ Auction.reservePrice a' = Auction.reservePrice a
    /\ Auction.minIncrement a' = Auction.minIncrement a
    /\ Auction.startTime a' = Auction.startTime a
    /\ Auction.endTime a' = Auction.endTime a
    /\ Auction.totalBids a' = Auction.totalBids a.
Proof.
  unfold auctionController.cancelAuction.
  destruct (findById_throws env); [discriminate|].
  destruct (auctions s !! auctionController.id req) as [a|] eqn:Ha; [|discriminate].
  destruct (_ && _); [discriminate|].
  case_bool_decide; [discriminate|].
  destruct (save_throws env); [discriminate|].
  destruct (findByIdAndUpdate_throws env); [discriminate|].
  intros _. exists a. eexists. simpl.
  split; [reflexivity|]. split; [apply lookup_insert_eq|].
  split; [reflexivity|]. split; [|split; [|by repeat split]].
  - intros it Hit. rewrite lookup_alter, decide_True by done. rewrite Hit. simpl.
    eexists. split; [reflexivity|]. by repeat split.
  - intros j Hj. rewrite lookup_alter. case_decide as Heq; [|done].
    subst j. destruct Hj as [Hj | Hj]; [done|]. by rewrite Hj.
Qed.

Lemma cancelAuction_success_witness :
  exists a a',
    auctions (sample_store Auction.pending 0) !! auction1 = Some a
    /\ auctions (auctionController.cancelAuction
                   (auctionController.mkRequest auction1 seller1 "seller") (calm 500)
                   (sample_store Auction.pending 0)).1 !! auction1 = Some a'
    /\ Auction.status a' = Auction.cancelled
    /\ (Item.status <$> items (sample_store Auction.pending 0) !! item1
        = Some Item.in_auction
        /\ exists it',
             items (auctionController.cancelAuction
                      (auctionController.mkRequest auction1 seller1 "seller") (calm 500)
                      (sample_store Auction.pending 0)).1 !! item1 = Some it'
             /\ Item.status it' = Item.available).
Proof.
  destruct (cancelAuction_success
              (auctionController.mkRequest auction1 seller1 "seller") (calm 500)
              (sample_store Auction.pending 0))
    as (a & a' & H1 & H2 & H3 & H4 & _); [concrete|].
  exists a, a'. split; [exact H1|]. split; [exact H2|]. split; [exact H3|].
  split; [reflexivity|].
  assert (Ha : a = sample_auction Auction.pending 0).
  { unfold sample_store in H1. simpl in H1.
    rewrite lookup_singleton_eq in H1. by injection H1. }
  subst a. destruct (H4 sample_item) as (it' & Hit' & Hst & _); [reflexivity|].
  exists it'. split; [exact Hit' | exact Hst].
Defined.

(** ** C4: bid and auction are written one after the other *)

Lemma bidCount_Bid_create (i : string) (b : Bid.t) (s : Store) :
  bidCount i (Bid_create b s)
  = bidCount i s + (if bool_decide (Bid.auction b = i) then 1 else 0).
Proof.
  unfold bidCount, Bid_create. simpl.
  rewrite filter_app, length_app, Nat2Z.inj_add. f_equal.
  rewrite filter_cons, filter_nil. case_bool_decide; case_decide; done.
Qed.

(** When every write completes, an accepted bid moves [totalBids] and the
    number of stored bids together. *)
Lemma placeBid_count_kept (isValid : string -> bool)
    (req : Request) (env : Env) (s : Store) (a : Auction.t) :
  auctions s !! auctionId req = Some a ->
  save_throws env = None ->
  Auction.totalBids a = bidCount (auctionId req) s ->
  exists a', auctions (placeBid isValid req env s).1 !! auctionId req = Some a'
    /\ Auction.totalBids a' = bidCount (auctionId req) (placeBid isValid req env s).1.
Proof.
  intros Ha Hs Hcount.
  destruct (placeBid_inv isValid req env s)
    as [(c & m & Hr & _ & [-> | Hb]) | (b & b' & Hb & _ & Hp & -> & _)].
  - by exists a.
  - exfalso. revert Hb Hr. unfold placeBid.
    repeat (first [ case_bool_decide | case_match ]); simpl;
      intros; simplify_eq; try congruence.
    all: match goal with
         | H : _ = Bid_create _ _ |- _ =>
             apply (f_equal (fun x => length (bids x))) in H; simpl in H;
             rewrite length_app in H; simpl in H; lia
         end.
  - apply Auction_placeBid_Return in Hp as (_ & _ & _ & ->).
    assert (b = a) as -> by congruence.
    simpl. rewrite lookup_insert_eq. eexists. split; [reflexivity|].
    simpl. unfold bidCount in *. simpl.
    rewrite filter_app, length_app, Nat2Z.inj_add, Hcount. f_equal.
    rewrite filter_cons, filter_nil. simpl. by case_decide.
Qed.

(** C4, where the code departs from it.  An admissible bid whose
    [Bid.create] completes and whose [auction.save] throws is answered
    500; the bid document is stored, the auction is not updated: one bid
    is on record while [totalBids] is 0 and [currentPrice] is still 10. *)
Theorem placeBid_partial_commit :
  let env := mkEnv 1500 1501 None None (Some (text "save failed")) None in
  let r := placeBid sample_isValid (mkRequest auction1 bidder1 12%Q) env
             (sample_store Auction.active 0) in
  code r.2 = 500%nat
  /\ bids r.1 = [Bid.mk auction1 bidder1 12%Q]
  /\ bidCount auction1 r.1 = 1
  /\ Auction.totalBids <$> auctions r.1 !! auction1 = Some 0
  /\ Auction.currentPrice <$> auctions r.1 !! auction1 = Some 10%Q.
Proof. vm_compute. repeat split. Qed.

(** * Further properties of the engine *)

(** ** One bid request, case by case *)

(** ** X1: a refused save is not remembered *)

(** X1. A bid that passes every check and whose save of the auction throws
    is logged and leaves the auction as it was, so the same request passes
    the checks again: submitted once in each of the worlds [envs], it is
    logged once for each of them, and the stored auctions and items still
    show none of it. *)
Theorem placeBid_retry_logged (isValid : string -> bool)
    (req : Request) (envs : list Env) (s : Store) (a : Auction.t) :
  isValid (auctionId req) = true ->
  auctions s !! auctionId req = Some a ->
  Auction.seller a <> userId req ->
  (Auction.currentPrice a < amount req)%Q ->
  (Number.add (Auction.currentPrice a) (Auction.minIncrement a) <= amount req)%Q ->
  Forall (fun env =>
            findById_throws env = None
            /\ create_throws env = None
            /\ save_throws env <> None
            /\ Auction.isActive (now env) a = true) envs ->
  bids (run isValid (map (PlaceBid req) envs) s)
  = bids s ++ repeat (Bid.mk (auctionId req) (userId req) (amount req)) (length envs)
  /\ auctions (run isValid (map (PlaceBid req) envs) s) = auctions s
  /\ items (run isValid (map (PlaceBid req) envs) s) = items s.
Proof.
  intros Hv Ha Hne Hgt Hge Henvs. revert s Ha.
  induction Henvs as [|env envs (Hf & Hc & Hs & Hact) _ IH]; intros s Ha.
  - simpl. by rewrite app_nil_r.
  - assert (Hp : Auction.placeBid (now env) (amount req) a
                 = Return (Auction.set_totalBids (Auction.totalBids a + 1)
                             (Auction.set_currentPrice (amount req) a))).
    { by apply Auction_placeBid_Return. }
    assert (Hstep : step isValid s (PlaceBid req env)
                    = Bid_create (Bid.mk (auctionId req) (userId req) (amount req)) s).
    { simpl. rewrite (placeBid_found isValid req env s a Hv Hf Ha).
      rewrite bool_decide_eq_false_2 by done. rewrite Hp, Hc.
      by destruct (save_throws env). }
    change (run isValid (map (PlaceBid req) (env :: envs)) s)
      with (run isValid (map (PlaceBid req) envs) (step isValid s (PlaceBid req env))).
    rewrite Hstep.
    destruct (IH (Bid_create (Bid.mk (auctionId req) (userId req) (amount req)) s) Ha)
      as (Hb & Hau & Hit).
    rewrite Hb, Hau, Hit. simpl. by rewrite <- app_assoc.
Qed.

Lemma placeBid_retry_logged_witness :
  bids (run sample_isValid
          (map (PlaceBid (mkRequest auction1 bidder1 12%Q))
             [mkEnv 1500 1501 None None
                (Some (text "Start time must be in the future")) None;
              mkEnv 1600 1601 None None
                (Some (text "Start time must be in the future")) None])
          (sample_store Auction.active 0))
  = [Bid.mk auction1 bidder1 12%Q; Bid.mk auction1 bidder1 12%Q]
  /\ auctions (run sample_isValid
                 (map (PlaceBid (mkRequest auction1 bidder1 12%Q))
                    [mkEnv 1500 1501 None None
                       (Some (text "Start time must be in the future")) None;
                     mkEnv 1600 1601 None None
                       (Some (text "Start time must be in the future")) None])
                 (sample_store Auction.active 0))
     = auctions (sample_store Auction.active 0).
Proof.
  destruct (placeBid_retry_logged sample_isValid (mkRequest auction1 bidder1 12%Q)
              [mkEnv 1500 1501 None None
                 (Some (text "Start time must be in the future")) None;
               mkEnv 1600 1601 None None
                 (Some (text "Start time must be in the future")) None]
              (sample_store Auction.active 0) (sample_auction Auction.active 0))
    as (Hb & Hau & _).
  - reflexivity.
  - reflexivity.
  - vm_compute; discriminate.
  - vm_compute; reflexivity.
  - vm_compute; discriminate.
  - repeat constructor; discriminate.
  - split; [exact Hb | exact Hau].
Defined.

(** ** X2: what a bid request leaves alone *)

(** X2. However a bid request ends, it touches no item and no auction
    other than the one it names, and it stores no auction under an id that
    had none.  The auction it names is still stored afterwards, with the
    same item, seller, status, start price, reserve price, increment and
    start and end time; its [currentPrice] and [totalBids] are not lower
    than before.  The bid log is as it was or longer by the one bid of
    the request. *)
Theorem placeBid_frame (isValid : string -> bool)
    (req : Request) (env : Env) (s : Store) :
  items (placeBid isValid req env s).1 = items s
  /\ (forall j, j <> auctionId req \/ auctions s !! j = None ->
        auctions (placeBid isValid req env s).1 !! j = auctions s !! j)
  /\ (forall a, auctions s !! auctionId req = Some a ->
        exists a',
          auctions (placeBid isValid req env s).1 !! auctionId req = Some a'
          /\ Auction.item a' = Auction.item a
          /\ Auction.seller a' = Auction.seller a
          /\ Auction.status a' = Auction.status a
          /\ Auction.startPrice a' = Auction.startPrice a
          /\ Auction.reservePrice a' = Auction.reservePrice a
          /\ Auction.minIncrement a' = Auction.minIncrement a
          /\ Auction.startTime a' = Auction.startTime a
          /\ Auction.endTime a' = Auction.endTime a
          /\ (Auction.currentPrice a <= Auction.currentPrice a')%Q
          /\ Auction.totalBids a <= Auction.totalBids a')
  /\ (bids (placeBid isValid req env s).1 = bids s
      \/ bids (placeBid isValid req env s).1
         = bids s ++ [Bid.mk (auctionId req) (userId req) (amount req)]).
Proof.
  destruct (placeBid_writes isValid req env s)
    as [[-> _] | (b & b' & Hb & _ & Hp & [(-> & _ & _) | (-> & _ & _)])].
  - split; [done|]. split; [done|]. split; [|by left].
    intros a Ha. exists a. split; [done|]. repeat split; (lia || apply Qle_refl).
  - split; [done|]. split; [done|]. split; [|by right].
    intros a Ha. exists a. split; [done|]. repeat split; (lia || apply Qle_refl).
  - apply Auction_placeBid_Return in Hp as (_ & Hgt & _ & ->).
    split; [done|]. split; [|split; [|by right]].
    + intros j [Hj | Hj]; simpl; [by rewrite lookup_insert_ne|].
      rewrite lookup_insert_ne; [done|]. intros <-. by rewrite Hb in Hj.
    + intros a Ha. assert (b = a) as -> by congruence.
      eexists. split; [simpl; apply lookup_insert_eq|].
      simpl. repeat split; [by apply Qlt_le_weak | lia].
Qed.

Lemma placeBid_frame_witness :
  exists a',
    auctions (placeBid sample_isValid (mkRequest auction1 bidder1 12%Q)
                (mkEnv 1500 1501 None None
                   (Some (text "Start time must be in the future")) None)
                (sample_store Auction.active 0)).1 !! auction1 = Some a'
    /\ Auction.status a' = Auction.active
    /\ Auction.endTime a' = 2000.
Proof.
  destruct (placeBid_frame sample_isValid (mkRequest auction1 bidder1 12%Q)
              (mkEnv 1500 1501 None None
                 (Some (text "Start time must be in the future")) None)
              (sample_store Auction.active 0)) as (_ & _ & Hkept & _).
  destruct (Hkept (sample_auction Auction.active 0)) as (a' & Ha' & Hfields);
    [reflexivity|].
  exists a'. split; [exact Ha'|].
  destruct Hfields as (_ & _ & Hst & _ & _ & _ & _ & Hend & _).
  split; [by rewrite Hst | by rewrite Hend].
Defined.

(** ** One operation seen from one auction *)

(** Every way a cancellation can end: nothing written; or, for the seller
    or an admin and an auction without bids, the auction written as
    cancelled, and the item written too unless its update threw. *)
Lemma cancelAuction_writes (req : auctionController.Request) (env : Env) (s : Store) :
  ((auctionController.cancelAuction req env s).1 = s
   /\ code (auctionController.cancelAuction req env s).2 <> 200%nat)
  \/ (exists a,
       auctions s !! auctionController.id req = Some a
       /\ (Auction.seller a = auctionController.userId req
           \/ auctionController.role req = "admin"%string)
       /\ Auction.totalBids a <= 0
       /\ findById_throws env = None
       /\ save_throws env = None
       /\ ((exists err,
              findByIdAndUpdate_throws env = Some err
              /\ auctionController.cancelAuction req env s
                 = (Auction_save (dateNow env) (auctionController.id req)
                      (Auction.set_status Auction.cancelled a) s,
                    auctionController.caught err))
           \/ (findByIdAndUpdate_throws env = None
               /\ (auctionController.cancelAuction req env s).1
                  = Item_findByIdAndUpdate_status (Auction.item a) Item.available
                      (Auction_save (dateNow env) (auctionController.id req)
                         (Auction.set_status Auction.cancelled a) s)
               /\ code (auctionController.cancelAuction req env s).2 = 200%nat))).
Proof.
  unfold auctionController.cancelAuction.
  destruct (findById_throws env); [by left|].
  destruct (auctions s !! auctionController.id req) as [a|] eqn:Ha; [|by left].
  destruct (negb (bool_decide (Auction.seller a = auctionController.userId req))
            && negb (bool_decide (auctionController.role req = "admin"%string)))
    eqn:Hauth; [by left|].
  destruct (bool_decide (0 < Auction.totalBids a)) eqn:Hbids; [by left|].
  apply bool_decide_eq_false in Hbids.
  destruct (save_throws env); [by left|].
  right. exists a. split; [done|]. split.
  { apply andb_false_iff in Hauth as [H|H]; apply negb_false_iff in H;
      apply bool_decide_eq_true in H; auto. }
  split; [lia|]. do 2 (split; [done|]).
  destruct (findByIdAndUpdate_throws env) as [err|]; [left; by exists err | right; done].
Qed.

(** The three things an operation can do to a stored auction: leave the
    document (possibly logging a bid whose save threw), take a bid on it,
    or cancel it. *)
Lemma step_effect (isValid : string -> bool) (op : Op) (s : Store)
    (i : string) (a : Auction.t) :
  auctions s !! i = Some a ->
  exists a', auctions (step isValid s op) !! i = Some a'
    /\ ((a' = a
         /\ (bidCount i (step isValid s op) = bidCount i s
             \/ (bidCount i (step isValid s op) = bidCount i s + 1
                 /\ exists req env, op = PlaceBid req env /\ save_throws env <> None)))
        \/ (exists amt t,
              a' = Auction.set_updatedAt t
                     (Auction.set_totalBids (Auction.totalBids a + 1)
                        (Auction.set_currentPrice amt a))
              /\ Auction.status a = Auction.active
              /\ (Auction.currentPrice a < amt)%Q
              /\ bidCount i (step isValid s op) = bidCount i s + 1)
        \/ (exists t,
              a' = Auction.set_updatedAt t (Auction.set_status Auction.cancelled a)
              /\ Auction.totalBids a <= 0
              /\ bidCount i (step isValid s op) = bidCount i s)).
Proof.
  intros Ha. destruct op as [req env | req env]; simpl.
  - destruct (placeBid_writes isValid req env s)
      as [[-> _] | (b & b' & Hb & _ & Hp & [(-> & _ & Hthrow) | (-> & _ & _)])].
    + exists a. split; [done|]. left. auto.
    + exists a. split; [done|]. left. split; [done|].
      rewrite bidCount_Bid_create. simpl. case_bool_decide; [right | left; lia].
      split; [done|]. by exists req, env.
    + apply Auction_placeBid_Return in Hp as (Hact & Hgt & _ & ->).
      apply isActive_true in Hact as [Hact _].
      assert (Hcount : forall x,
        bidCount i (Auction_save (dateNow env) (auctionId req) x
                      (Bid_create (Bid.mk (auctionId req) (userId req) (amount req)) s))
        = bidCount i (Bid_create (Bid.mk (auctionId req) (userId req) (amount req)) s))
        by reflexivity.
      simpl. destruct (decide (auctionId req = i)) as [<- | Hne].
      * rewrite lookup_insert_eq. eexists. split; [reflexivity|].
        assert (b = a) as -> by congruence.
        right; left. exists (amount req), (dateNow env). repeat split; try done.
        rewrite Hcount, bidCount_Bid_create. simpl.
        by rewrite bool_decide_eq_true_2.
      * rewrite lookup_insert_ne by done. exists a. split; [done|]. left.
        split; [done|]. left.
        rewrite Hcount, bidCount_Bid_create. simpl.
        rewrite bool_decide_eq_false_2 by done. lia.
  - destruct (cancelAuction_writes req env s)
      as [[-> _] | (b & Hb & _ & Hbids & _ & _ & [(err & _ & ->) | (_ & -> & _)])].
    + exists a. split; [done|]. left. auto.
    + simpl. destruct (decide (auctionController.id req = i)) as [<- | Hne].
      * rewrite lookup_insert_eq. eexists. split; [reflexivity|].
        assert (b = a) as -> by congruence.
        right; right. by exists (dateNow env).
      * rewrite lookup_insert_ne by done. exists a. split; [done|]. left. auto.
    + simpl. destruct (decide (auctionController.id req = i)) as [<- | Hne].
      * rewrite lookup_insert_eq. eexists. split; [reflexivity|].
        assert (b = a) as -> by congruence.
        right; right. by exists (dateNow env).
      * rewrite lookup_insert_ne by done. exists a. split; [done|]. left. auto.
Qed.

(** No operation adds or removes an auction document. *)
Lemma step_dom (isValid : string -> bool) (op : Op) (s : Store) (i : string) :
  is_Some (auctions (step isValid s op) !! i) <-> is_Some (auctions s !! i).
Proof.
  split.
  - destruct (auctions s !! i) as [a|] eqn:Ha; [by eauto|]. intros Hs. exfalso.
    revert Hs. destruct op as [req env | req env]; simpl.
    + destruct (placeBid_writes isValid req env s)
        as [[-> _] | (b & b' & Hb & _ & _ & [(-> & _) | (-> & _)])]; simpl.
      * rewrite Ha. by intros [? ?].
      * rewrite Ha. by intros [? ?].
      * rewrite lookup_insert_ne by congruence. rewrite Ha. by intros [? ?].
    + destruct (cancelAuction_writes req env s)
        as [[-> _] | (b & Hb & _ & _ & _ & _ & [(err & _ & ->) | (_ & -> & _)])];
        simpl.
      * rewrite Ha. by intros [? ?].
      * rewrite lookup_insert_ne by congruence. rewrite Ha. by intros [? ?].
      * rewrite lookup_insert_ne by congruence. rewrite Ha. by intros [? ?].
  - intros [a Ha]. destruct (step_effect isValid op s i a Ha) as (a' & -> & _). eauto.
Qed.

Lemma step_bids (isValid : string -> bool) (op : Op) (s : Store) :
  bids s `prefix_of` bids (step isValid s op).
Proof.
  destruct op as [req env | req env]; simpl.
  - destruct (placeBid_writes isValid req env s)
      as [[-> _] | (b & b' & _ & _ & _ & [(-> & _) | (-> & _)])]; simpl;
      [done | by apply prefix_app_r | by apply prefix_app_r].
  - destruct (cancelAuction_writes req env s)
      as [[-> _] | (b & _ & _ & _ & _ & _ & [(err & _ & ->) | (_ & -> & _)])];
      simpl; done.
Qed.

(** ** X3: nothing is ever deleted *)

(** X3. Over any history of bids and cancellations the bid log only
    grows at its end (what was logged stays, in place), and the set of
    stored auctions stays the same: no operation deletes a bid or an
    auction, and none creates an auction. *)
Theorem run_append_only (isValid : string -> bool) (ops : list Op) (s : Store) :
  bids s `prefix_of` bids (run isValid ops s)
  /\ forall i, is_Some (auctions (run isValid ops s) !! i) <-> is_Some (auctions s !! i).
Proof.
  revert s. induction ops as [|op ops IH]; intros s; simpl; [done|].
  destruct (IH (step isValid s op)) as [Hb Hd]. split.
  - etrans; [apply step_bids | exact Hb].
  - intros i. rewrite Hd. apply step_dom.
Qed.

(** ** X4: [totalBids] against the log *)

Lemma step_lookup_inv (isValid : string -> bool) (op : Op) (s : Store)
    (i : string) (a' : Auction.t) :
  auctions (step isValid s op) !! i = Some a' ->
  exists a, auctions s !! i = Some a.
Proof.
  intros Ha'. destruct (proj1 (step_dom isValid op s i)) as [a Ha]; eauto.
Qed.

Lemma step_undercounted (isValid : string -> bool) (op : Op) (s : Store) :
  undercounted s -> undercounted (step isValid s op).
Proof.
  intros Hs i a' Ha'.
  destruct (step_lookup_inv isValid op s i a' Ha') as [a Ha].
  specialize (Hs i a Ha).
  destruct (step_effect isValid op s i a Ha) as (b & Hb & Hcase).
  assert (b = a') as -> by congruence.
  destruct Hcase as [(-> & [-> | [-> _]]) | [(amt & t & -> & _ & _ & ->) | (t & -> & _ & ->)]];
    simpl; lia.
Qed.

Lemma step_totalBids (isValid : string -> bool) (op : Op) (s : Store)
    (i : string) (a : Auction.t) :
  auctions s !! i = Some a ->
  exists a', auctions (step isValid s op) !! i = Some a'
    /\ Auction.totalBids a <= Auction.totalBids a'.
Proof.
  intros Ha. destruct (step_effect isValid op s i a Ha) as (a' & Ha' & Hcase).
  exists a'. split; [done|].
  destruct Hcase as [(-> & _) | [(amt & t & -> & _) | (t & -> & _)]]; simpl; lia.
Qed.

(** X4. Over any history of bids and cancellations the [totalBids] of a
    stored auction never goes down, and if no auction claimed more bids
    than the log held for it at the start, none does at the end: a failed
    save can leave [totalBids] behind the log, nothing puts it ahead. *)
Theorem run_totalBids (isValid : string -> bool) (ops : list Op) (s : Store) :
  (forall i a, auctions s !! i = Some a ->
     exists a', auctions (run isValid ops s) !! i = Some a'
       /\ Auction.totalBids a <= Auction.totalBids a')
  /\ (undercounted s -> undercounted (run isValid ops s)).
Proof.
  revert s. induction ops as [|op ops IH]; intros s; simpl.
  - split; [|done]. intros i a Ha. exists a. split; [done | lia].
  - destruct (IH (step isValid s op)) as [Hmono Hunder]. split.
    + intros i a Ha.
      destruct (step_totalBids isValid op s i a Ha) as (a1 & Ha1 & Hle1).
      destruct (Hmono i a1 Ha1) as (a' & Ha' & Hle').
      exists a'. split; [done | lia].
    + intros Hs. apply Hunder. by apply step_undercounted.
Qed.

Lemma sample_store_counted : counted (sample_store Auction.active 0).
Proof.
  intros i a Ha. unfold sample_store in Ha. simpl in Ha.
  apply lookup_singleton_Some in Ha as [<- <-]. reflexivity.
Qed.

Lemma run_totalBids_witness :
  (exists a',
      auctions (run sample_isValid
                  [PlaceBid (mkRequest auction1 bidder1 12%Q) (calm 1200);
                   PlaceBid (mkRequest auction1 bidder1 15%Q)
                     (mkEnv 1300 1301 None None (Some (text "save failed")) None)]
                  (sample_store Auction.active 0)) !! auction1 = Some a'
      /\ 0 <= Auction.totalBids a')
  /\ undercounted
       (run sample_isValid
          [PlaceBid (mkRequest auction1 bidder1 12%Q) (calm 1200);
           PlaceBid (mkRequest auction1 bidder1 15%Q)
             (mkEnv 1300 1301 None None (Some (text "save failed")) None)]
          (sample_store Auction.active 0)).
Proof.
  destruct (run_totalBids sample_isValid
              [PlaceBid (mkRequest auction1 bidder1 12%Q) (calm 1200);
               PlaceBid (mkRequest auction1 bidder1 15%Q)
                 (mkEnv 1300 1301 None None (Some (text "save failed")) None)]
              (sample_store Auction.active 0)) as [Hmono Hunder].
  split.
  - apply (Hmono auction1 (sample_auction Auction.active 0)). reflexivity.
  - apply Hunder.
    intros i a Ha. rewrite (sample_store_counted i a Ha). lia.
Defined.

(** ** X5: with the validator of [startTime], bids change no auction *)

Lemma placeBid_validated_kept (isValid : string -> bool)
    (req : Request) (env : Env) (s : Store) :
  (forall a, auctions s !! auctionId req = Some a ->
             exists clock, now env <= clock /\ save_validated clock env a) ->
  auctions (placeBid isValid req env s).1 = auctions s
  /\ items (placeBid isValid req env s).1 = items s
  /\ code (placeBid isValid req env s).2 <> 201%nat.
Proof.
  intros Hval.
  destruct (placeBid_writes isValid req env s)
    as [[-> Hc] | (b & b' & Hb & _ & Hp & [(-> & -> & _) | (_ & _ & Hnone)])];
    [done | done |].
  exfalso. destruct (Hval b Hb) as (clock & Hclock & Hsave).
  apply Auction_placeBid_Return in Hp as (Hact & _).
  apply isActive_true in Hact as (_ & Hstart & _).
  specialize (Hsave Hnone). apply bool_decide_eq_true in Hsave. lia.
Qed.

(** X5. When every save of a bid request runs the validator of
    [startTime] on a clock that is not behind the one [isActive] read, no
    history of bid requests changes a stored auction or an item, however
    many bids it logs: [currentPrice] and [totalBids] stay as they
    were. *)
Theorem run_bids_validated (isValid : string -> bool) (ops : list Op) (s : Store) :
  bid_saves_validated s ops ->
  auctions (run isValid ops s) = auctions s
  /\ items (run isValid ops s) = items s.
Proof.
  revert s. induction ops as [|op ops IH]; intros s Hops; simpl; [done|].
  inversion Hops as [|? ? Hop Hrest]; subst.
  destruct op as [req env|]; [|done].
  destruct (placeBid_validated_kept isValid req env s Hop) as (Hau & Hit & _).
  destruct (IH (step isValid s (PlaceBid req env))) as (Hau' & Hit').
  - unfold bid_saves_validated in *. simpl. rewrite Hau. exact Hrest.
  - simpl in *. by rewrite Hau', Hit'.
Qed.

Lemma run_bids_validated_witness :
  auctions (run sample_isValid
              [PlaceBid (mkRequest auction1 bidder1 12%Q) (refused 1500);
               PlaceBid (mkRequest auction1 bidder1 9%Q) (refused 1600);
               PlaceBid (mkRequest auction1 bidder1 15%Q) (refused 1700)]
              (sample_store Auction.active 0))
  = auctions (sample_store Auction.active 0)
  /\ bidCount auction1
       (run sample_isValid
          [PlaceBid (mkRequest auction1 bidder1 12%Q) (refused 1500);
           PlaceBid (mkRequest auction1 bidder1 9%Q) (refused 1600);
           PlaceBid (mkRequest auction1 bidder1 15%Q) (refused 1700)]
          (sample_store Auction.active 0)) = 2.
Proof.
  split; [|reflexivity].
  apply (run_bids_validated sample_isValid).
  repeat constructor.
  - intros a Ha. exists 1500. split; [simpl; lia|]. intros Hnone. discriminate Hnone.
  - intros a Ha. exists 1600. split; [simpl; lia|]. intros Hnone. discriminate Hnone.
  - intros a Ha. exists 1700. split; [simpl; lia|]. intros Hnone. discriminate Hnone.
Defined.

(** ** X6: an auction that is not active stays as it is *)

Lemma run_frozen (isValid : string -> bool) (ops : list Op) :
  forall (s : Store) (i : string) (a : Auction.t),
    auctions s !! i = Some a ->
    Auction.status a <> Auction.active ->
    exists a', auctions (run isValid ops s) !! i = Some a'
      /\ (Auction.status a' = Auction.status a
          \/ Auction.status a' = Auction.cancelled)
      /\ Auction.currentPrice a' = Auction.currentPrice a
      /\ Auction.totalBids a' = Auction.totalBids a.
Proof.
  induction ops as [|op ops IH]; intros s i a Ha Hst; simpl.
  - exists a. auto.
  - destruct (step_effect isValid op s i a Ha) as (a1 & Ha1 & Hcase).
    assert (H1 : (Auction.status a1 = Auction.status a
                  \/ Auction.status a1 = Auction.cancelled)
                 /\ Auction.currentPrice a1 = Auction.currentPrice a
                 /\ Auction.totalBids a1 = Auction.totalBids a).
    { destruct Hcase as [(-> & _) | [(amt & t & _ & Hact & _) | (t & -> & _)]];
        [auto | done | simpl; auto]. }
    destruct H1 as (Hs1 & Hp1 & Hb1).
    destruct (IH _ i a1 Ha1) as (a' & Ha' & Hs' & Hp' & Hb').
    { destruct Hs1 as [-> | ->]; done. }
    exists a'. split; [done|]. split; [|split; congruence].
    destruct Hs' as [-> | ->]; auto.
Qed.

(** X6. An auction whose status is not [active] is never bid on: over
    any history of bids and cancellations its [currentPrice] and
    [totalBids] stay what they were, and its status either stays or
    becomes [cancelled]; no operation makes an auction active. *)
Theorem run_inactive_frozen (isValid : string -> bool) (ops : list Op)
    (s : Store) (i : string) (a : Auction.t) :
  auctions s !! i = Some a ->
  Auction.status a <> Auction.active ->
  exists a', auctions (run isValid ops s) !! i = Some a'
    /\ Auction.status a' <> Auction.active
    /\ (Auction.status a' = Auction.status a \/ Auction.status a' = Auction.cancelled)
    /\ Auction.currentPrice a' = Auction.currentPrice a
    /\ Auction.totalBids a' = Auction.totalBids a.
Proof.
  intros Ha Hst.
  destruct (run_frozen isValid ops s i a Ha Hst) as (a' & Ha' & Hs' & Hp' & Hb').
  exists a'. repeat split; try done.
  destruct Hs' as [-> | ->]; done.
Qed.

Lemma run_inactive_frozen_witness :
  exists a',
    auctions (run sample_isValid
                [PlaceBid (mkRequest auction1 bidder1 12%Q) (calm 1200);
                 PlaceBid (mkRequest auction1 bidder1 15%Q) (calm 1300)]
                (sample_store Auction.pending 0)) !! auction1 = Some a'
    /\ Auction.status a' <> Auction.active
    /\ (Auction.status a' = Auction.pending \/ Auction.status a' = Auction.cancelled)
    /\ Auction.currentPrice a' = 10%Q
    /\ Auction.totalBids a' = 0.
Proof.
  apply (run_inactive_frozen sample_isValid
           [PlaceBid (mkRequest auction1 bidder1 12%Q) (calm 1200);
            PlaceBid (mkRequest auction1 bidder1 15%Q) (calm 1300)]
           (sample_store Auction.pending 0) auction1 (sample_auction Auction.pending 0));
    concrete.
Defined.

(** ** X7: after a cancellation *)

(** X7. Once [cancelAuction] has answered with success, the auction stays
    [cancelled] over every later history of bids and cancellations, and no
    later bid moves its [currentPrice] or [totalBids]. *)
Theorem cancelAuction_final (isValid : string -> bool)
    (req : auctionController.Request) (env : Env) (s : Store) (ops : list Op) :
  code (auctionController.cancelAuction req env s).2 = 200%nat ->
  exists a a',
    auctions s !! auctionController.id req = Some a
    /\ auctions (run isValid ops (auctionController.cancelAuction req env s).1)
         !! auctionController.id req = Some a'
    /\ Auction.status a' = Auction.cancelled
    /\ Auction.currentPrice a' = Auction.currentPrice a
    /\ Auction.totalBids a' = Auction.totalBids a.
Proof.
  intros H200.
  destruct (cancelAuction_writes req env s)
    as [[_ Hno] | (a & Ha & _ & _ & _ & _ & [(err & _ & Heq) | (_ & Hs1 & _)])];
    [done | rewrite Heq in H200; discriminate |].
  set (c := Auction.pre_save (dateNow env) (Auction.set_status Auction.cancelled a)).
  assert (Hc : auctions (auctionController.cancelAuction req env s).1
               !! auctionController.id req = Some c).
  { rewrite Hs1. simpl. apply lookup_insert_eq. }
  destruct (run_frozen isValid ops _ _ c Hc) as (a' & Ha' & Hs' & Hp' & Hb'); [done|].
  exists a, a'. repeat split; try done.
  destruct Hs' as [-> | ->]; done.
Qed.

Lemma cancelAuction_final_witness :
  exists a a',
    auctions (sample_store Auction.pending 0) !! auction1 = Some a
    /\ auctions (run sample_isValid
                   [PlaceBid (mkRequest auction1 bidder1 12%Q) (calm 1200)]
                   (auctionController.cancelAuction
                      (auctionController.mkRequest auction1 seller1 "seller")
                      (calm 500) (sample_store Auction.pending 0)).1)
         !! auction1 = Some a'
    /\ Auction.status a' = Auction.cancelled
    /\ Auction.currentPrice a' = Auction.currentPrice a
    /\ Auction.totalBids a' = Auction.totalBids a.
Proof.
  apply (cancelAuction_final sample_isValid
           (auctionController.mkRequest auction1 seller1 "seller") (calm 500)
           (sample_store Auction.pending 0)
           [PlaceBid (mkRequest auction1 bidder1 12%Q) (calm 1200)]).
  concrete.
Defined.

(** ** X8: who can cancel *)

(** X8. [cancelAuction] writes to the database only for a stored auction
    without bids and a caller who is its seller or has the role admin, and
    only if [findById] and [save] complete; every other request leaves the
    database as it was. *)
Theorem cancelAuction_authorized (req : auctionController.Request) (env : Env) (s : Store) :
  (auctionController.cancelAuction req env s).1 <> s ->
  exists a,
    auctions s !! auctionController.id req = Some a
    /\ (Auction.seller a = auctionController.userId req
        \/ auctionController.role req = "admin"%string)
    /\ Auction.totalBids a <= 0
    /\ findById_throws env = None
    /\ save_throws env = None.
Proof.
  intros Hne.
  destruct (cancelAuction_writes req env s)
    as [[Heq _] | (a & Ha & Hauth & Hbids & Hf & Hs & _)]; [done|].
  by exists a.
Qed.

Lemma cancelAuction_authorized_witness :
  exists a,
    auctions (sample_store Auction.pending 0) !! auction1 = Some a
    /\ (Auction.seller a = "650000000000000000000c09"%string
        \/ "admin"%string = "admin"%string)
    /\ Auction.totalBids a <= 0.
Proof.
  destruct (cancelAuction_authorized
              (auctionController.mkRequest auction1 "650000000000000000000c09" "admin")
              (calm 500) (sample_store Auction.pending 0))
    as (a & Ha & Hauth & Hbids & _).
  { vm_compute. discriminate. }
  exists a. auto.
Defined.

(** ** X9: a cancellation whose item update fails *)

(** X9. When the item update of a cancellation throws, the caller is
    answered 500 "Failed to cancel auction", yet the auction is already
    stored as [cancelled] and the items are as they were (the item keeps
    its status). *)
Theorem cancelAuction_item_update_fails (req : auctionController.Request)
    (env : Env) (s : Store) (a : Auction.t) (err : Message) :
  findById_throws env = None ->
  auctions s !! auctionController.id req = Some a ->
  Auction.seller a = auctionController.userId req
  \/ auctionController.role req = "admin"%string ->
  Auction.totalBids a <= 0 ->
  save_throws env = None ->
  findByIdAndUpdate_throws env = Some err ->
  (auctionController.cancelAuction req env s).2 = auctionController.caught err
  /\ auctions (auctionController.cancelAuction req env s).1 !! auctionController.id req
     = Some (Auction.pre_save (dateNow env) (Auction.set_status Auction.cancelled a))
  /\ items (auctionController.cancelAuction req env s).1 = items s.
Proof.
  intros Hf Ha Hauth Hbids Hs Hi.
  unfold auctionController.cancelAuction. rewrite Hf, Ha, Hs, Hi.
  assert (negb (bool_decide (Auction.seller a = auctionController.userId req))
          && negb (bool_decide (auctionController.role req = "admin"%string))
          = false) as ->.
  { apply andb_false_iff. destruct Hauth as [Ho|Ho];
      [left | right]; by rewrite bool_decide_eq_true_2. }
  rewrite bool_decide_eq_false_2 by lia. simpl.
  split; [done|]. split; [apply lookup_insert_eq | done].
Qed.

Lemma cancelAuction_item_update_fails_witness :
  (auctionController.cancelAuction
     (auctionController.mkRequest auction1 seller1 "seller")
     (mkEnv 500 501 None None None (Some (text "connection lost")))
     (sample_store Auction.pending 0)).2
  = auctionController.caught (text "connection lost")
  /\ auctions (auctionController.cancelAuction
                 (auctionController.mkRequest auction1 seller1 "seller")
                 (mkEnv 500 501 None None None (Some (text "connection lost")))
                 (sample_store Auction.pending 0)).1 !! auction1
     = Some (Auction.pre_save 501
               (Auction.set_status Auction.cancelled (sample_auction Auction.pending 0)))
  /\ items (auctionController.cancelAuction
              (auctionController.mkRequest auction1 seller1 "seller")
              (mkEnv 500 501 None None None (Some (text "connection lost")))
              (sample_store Auction.pending 0)).1
     = items (sample_store Auction.pending 0).
Proof.
  apply (cancelAuction_item_update_fails
           (auctionController.mkRequest auction1 seller1 "seller")
           (mkEnv 500 501 None None None (Some (text "connection lost")))
           (sample_store Auction.pending 0) (sample_auction Auction.pending 0)
           (text "connection lost")); try concrete.
  left; concrete.
Defined.

(** * The role checks *)

(** X10. [authorize(...roles)] lets a request pass exactly when a user is
    attached whose role is among [roles] (so with no role listed nobody
    passes); [sellerOnly] and [adminOnly] decide, and answer 401 or 403,
    exactly as [authorize('seller', 'admin')] and [authorize('admin')]
    do; whoever passes [adminOnly] passes [sellerOnly]. *)
Theorem role_checks (roles : list string) (user : option string) :
  (authMiddleware.authorize roles user = authMiddleware.Next
   <-> exists role, user = Some role /\ role ∈ roles)
  /\ authMiddleware.answered (authMiddleware.sellerOnly user)
     = authMiddleware.answered (authMiddleware.authorize ["seller"; "admin"]%string user)
  /\ authMiddleware.answered (authMiddleware.adminOnly user)
     = authMiddleware.answered (authMiddleware.authorize ["admin"%string] user)
  /\ (authMiddleware.adminOnly user = authMiddleware.Next ->
      authMiddleware.sellerOnly user = authMiddleware.Next).
Proof.
  unfold authMiddleware.authorize, authMiddleware.sellerOnly, authMiddleware.adminOnly.
  destruct user as [role|]; simpl.
  - split; [|split; [|split]].
    + case_bool_decide as Hin; simpl; split; try done.
      * intros _. by exists role.
      * intros (r & [= <-] & Hr). done.
    + destruct (decide (role = "seller"%string)) as [-> | Hs]; [reflexivity|].
      destruct (decide (role = "admin"%string)) as [-> | Ha]; [reflexivity|].
      rewrite !bool_decide_eq_true_2 by done.
      rewrite bool_decide_eq_false_2; [reflexivity|].
      rewrite !elem_of_cons, elem_of_nil. tauto.
    + destruct (decide (role = "admin"%string)) as [-> | Ha]; [reflexivity|].
      rewrite bool_decide_eq_true_2 by done.
      rewrite bool_decide_eq_false_2; [reflexivity|].
      rewrite !elem_of_cons, elem_of_nil. tauto.
    + repeat case_bool_decide; simpl; try done.
  - split; [|done]. split; [done|]. by intros (r & ? & _).
Qed.

Lemma role_checks_witness :
  authMiddleware.authorize ["seller"; "admin"]%string (Some "seller"%string)
  = authMiddleware.Next
  /\ authMiddleware.sellerOnly (Some "admin"%string) = authMiddleware.Next.
Proof.
  destruct (role_checks ["seller"; "admin"]%string (Some "seller"%string))
    as [Hiff _].
  destruct (role_checks [] (Some "admin"%string)) as (_ & _ & _ & Himp).
  split.
  - apply Hiff. exists "seller"%string. split; [reflexivity | apply list_elem_of_here].
  - apply Himp. reflexivity.
Defined.

(** * The countdown *)

Lemma Qfloor_sub_Z (q : Q) (k : Z) : Qfloor (q - inject_Z k) = Qfloor q - k.
Proof.
  destruct q as [n d]. unfold Qminus, Qplus, Qopp, inject_Z, Qfloor. simpl.
  rewrite Z.mul_1_r, Pos.mul_1_r.
  replace (n + - k * Z.pos d) with (n + (- k) * Z.pos d) by lia.
  rewrite Z.div_add by lia. lia.
Qed.

(** On a number that is not negative, [Math.floor(x % c)] is the floor
    of [x] modulo [c]. *)
Lemma js_rem_floor (q : Q) (c : positive) :
  (0 <= q)%Q ->
  Qfloor (CountdownTimer.js_rem q (inject_Z (Zpos c))) = Qfloor q mod Zpos c.
Proof.
  intros Hq. unfold CountdownTimer.js_rem, CountdownTimer.js_trunc.
  rewrite bool_decide_eq_true_2.
  2:{ destruct q as [n d]. unfold Qle, Qdiv, Qinv, Qmult, inject_Z in *.
      simpl in *. nia. }
  assert (Heq : (inject_Z (Z.pos c) * inject_Z (Qfloor (q / inject_Z (Z.pos c)))
                 == inject_Z (Zpos c * (Qfloor q / Zpos c)))%Q).
  { rewrite inject_Z_mult. apply Qmult_comp; [reflexivity|].
    destruct q as [n d]. unfold Qdiv, Qinv, Qmult, inject_Z, Qfloor. simpl.
    rewrite Z.mul_1_r. rewrite Pos2Z.inj_mul, Z.div_div by lia. reflexivity. }
  rewrite Heq, Qfloor_sub_Z.
  rewrite (Z.mod_eq (Qfloor q) (Z.pos c)) by lia. lia.
Qed.

(** The four components as integer quotients and remainders. *)
Lemma formatTime_components (ms : Z) :
  0 < ms ->
  CountdownTimer.formatTime ms
  = CountdownTimer.mkTime (ms / 86400000) ((ms / 3600000) mod 24)
      ((ms / 60000) mod 60) ((ms / 1000) mod 60) ms.
Proof.
  intros Hms. unfold CountdownTimer.formatTime.
  rewrite bool_decide_eq_false_2 by lia.
  assert (Hnn : forall d : positive, (0 <= inject_Z ms / inject_Z (Zpos d))%Q).
  { intros d. unfold Qle, Qdiv, Qinv, Qmult, inject_Z. simpl. nia. }
  assert (Hfl : forall d : positive,
            Qfloor (inject_Z ms / inject_Z (Zpos d)) = ms / Zpos d).
  { intros d. unfold Qdiv, Qinv, Qmult, inject_Z, Qfloor. simpl.
    by rewrite Z.mul_1_r. }
  f_equal.
  - exact (Hfl 86400000%positive).
  - change 24%Q with (inject_Z 24).
    change (1000 * 60 * 60)%Q with (inject_Z 3600000).
    rewrite js_rem_floor by apply Hnn. by rewrite Hfl.
  - change 60%Q with (inject_Z 60) at 2.
    rewrite js_rem_floor.
    + unfold Qdiv, Qinv, Qmult, inject_Z, Qfloor. simpl. by rewrite !Z.mul_1_r.
    + unfold Qle, Qdiv, Qinv, Qmult, inject_Z. simpl. nia.
  - change 60%Q with (inject_Z 60).
    change 1000%Q with (inject_Z 1000).
    rewrite js_rem_floor by apply Hnn. by rewrite Hfl.
Qed.

(** X11. For a positive number of milliseconds [formatTime] splits the
    whole seconds into days, hours below 24, minutes below 60 and seconds
    below 60 that add up again to the whole seconds of the input, and
    keeps the input as [total]; so less than one second is lost. *)
Theorem formatTime_split (ms : Z) :
  0 < ms ->
  0 <= CountdownTimer.days (CountdownTimer.formatTime ms)
  /\ 0 <= CountdownTimer.hours (CountdownTimer.formatTime ms) < 24
  /\ 0 <= CountdownTimer.minutes (CountdownTimer.formatTime ms) < 60
  /\ 0 <= CountdownTimer.seconds (CountdownTimer.formatTime ms) < 60
  /\ CountdownTimer.total (CountdownTimer.formatTime ms) = ms
  /\ ms / 1000
     = ((CountdownTimer.days (CountdownTimer.formatTime ms) * 24
         + CountdownTimer.hours (CountdownTimer.formatTime ms)) * 60
        + CountdownTimer.minutes (CountdownTimer.formatTime ms)) * 60
       + CountdownTimer.seconds (CountdownTimer.formatTime ms)
  /\ 0 <= ms - 1000 * (((CountdownTimer.days (CountdownTimer.formatTime ms) * 24
                         + CountdownTimer.hours (CountdownTimer.formatTime ms)) * 60
                        + CountdownTimer.minutes (CountdownTimer.formatTime ms)) * 60
                       + CountdownTimer.seconds (CountdownTimer.formatTime ms)) < 1000.
Proof.
  intros Hms. rewrite formatTime_components by done. simpl.
  set (S := ms / 1000).
  assert (HS : 0 <= S) by (apply Z.div_pos; lia).
  assert (H1 : ms / 60000 = S / 60)
    by (unfold S; rewrite Z.div_div by lia; reflexivity).
  assert (H2 : ms / 3600000 = S / 60 / 60)
    by (unfold S; rewrite !Z.div_div by lia; reflexivity).
  assert (H3 : ms / 86400000 = S / 60 / 60 / 24)
    by (unfold S; rewrite !Z.div_div by lia; reflexivity).
  rewrite H1, H2, H3.
  pose proof (Z.div_mod S 60 ltac:(lia)) as D1.
  pose proof (Z.div_mod (S / 60) 60 ltac:(lia)) as D2.
  pose proof (Z.div_mod (S / 60 / 60) 24 ltac:(lia)) as D3.
  pose proof (Z.mod_pos_bound S 60 ltac:(lia)) as B1.
  pose proof (Z.mod_pos_bound (S / 60) 60 ltac:(lia)) as B2.
  pose proof (Z.mod_pos_bound (S / 60 / 60) 24 ltac:(lia)) as B3.
  pose proof (Z.div_mod ms 1000 ltac:(lia)) as D0.
  pose proof (Z.mod_pos_bound ms 1000 ltac:(lia)) as B0.
  assert (0 <= S / 60 / 60 / 24) by (repeat apply Z.div_pos; lia).
  fold S in D0.
  repeat split; try lia.
Qed.

Lemma formatTime_split_witness :
  CountdownTimer.formatTime 93784500
  = CountdownTimer.mkTime 1 2 3 4 93784500
  /\ 93784500 / 1000
     = ((CountdownTimer.days (CountdownTimer.formatTime 93784500) * 24
         + CountdownTimer.hours (CountdownTimer.formatTime 93784500)) * 60
        + CountdownTimer.minutes (CountdownTimer.formatTime 93784500)) * 60
       + CountdownTimer.seconds (CountdownTimer.formatTime 93784500).
Proof.
  split; [vm_compute; reflexivity|].
  apply (formatTime_split 93784500). lia.
Defined.

(** X12. While time remains, the text of the countdown starts with a
    unit that is not zero, except in the last second, where it is
    "0s"; and it is introduced by "Ending in" exactly during the last
    hour. *)
Theorem formatDisplay_leading (ms : Z) :
  0 < ms ->
  (ms < 1000 ->
   CountdownTimer.formatDisplay (CountdownTimer.formatTime ms)
   = [CountdownTimer.num 0; Lit "s"])
  /\ (1000 <= ms ->
      exists n rest,
        CountdownTimer.formatDisplay (CountdownTimer.formatTime ms)
        = CountdownTimer.num n :: rest
        /\ 0 < n)
  /\ (CountdownTimer.label false (CountdownTimer.formatTime ms)
      = (if bool_decide (ms < 3600000)
         then Lit "Ending in "
              :: CountdownTimer.formatDisplay (CountdownTimer.formatTime ms)
         else CountdownTimer.formatDisplay (CountdownTimer.formatTime ms))).
Proof.
  intros Hms. rewrite formatTime_components by done.
  assert (HS : 0 <= ms / 1000) by (apply Z.div_pos; lia).
  assert (H1 : ms / 60000 = ms / 1000 / 60) by (rewrite Z.div_div by lia; done).
  assert (H2 : ms / 3600000 = ms / 1000 / 60 / 60)
    by (rewrite !Z.div_div by lia; done).
  assert (H3 : ms / 86400000 = ms / 1000 / 60 / 60 / 24)
    by (rewrite !Z.div_div by lia; done).
  pose proof (Z.div_mod (ms / 1000) 60 ltac:(lia)) as D1.
  pose proof (Z.div_mod (ms / 1000 / 60) 60 ltac:(lia)) as D2.
  pose proof (Z.div_mod (ms / 1000 / 60 / 60) 24 ltac:(lia)) as D3.
  pose proof (Z.mod_pos_bound (ms / 1000) 60 ltac:(lia)) as B1.
  pose proof (Z.mod_pos_bound (ms / 1000 / 60) 60 ltac:(lia)) as B2.
  pose proof (Z.mod_pos_bound (ms / 1000 / 60 / 60) 24 ltac:(lia)) as B3.
  assert (H0 : 0 <= ms / 1000 / 60 / 60 / 24) by (repeat apply Z.div_pos; lia).
  unfold CountdownTimer.formatDisplay, CountdownTimer.label,
    CountdownTimer.isVeryUrgent, CountdownTimer.isEndingSoon. simpl.
  rewrite H1, H2, H3. split; [|split].
  - intros Hlt. assert (ms / 1000 = 0) as -> by (apply Z.div_small; lia).
    reflexivity.
  - intros Hge. assert (1 <= ms / 1000) by (apply Z.div_le_lower_bound; lia).
    repeat case_bool_decide; eexists _, _; (split; [reflexivity|]); lia.
  - rewrite (bool_decide_eq_true_2 (0 < ms)) by done. simpl.
    destruct (bool_decide (ms < 300000)) eqn:Hu; simpl.
    + apply bool_decide_eq_true in Hu.
      by rewrite (bool_decide_eq_true_2 (ms < 3600000)) by lia.
    + by destruct (bool_decide (ms < 3600000)).
Qed.

Lemma formatDisplay_leading_witness :
  CountdownTimer.formatDisplay (CountdownTimer.formatTime 999)
  = [CountdownTimer.num 0; Lit "s"]
  /\ exists n rest,
       CountdownTimer.formatDisplay (CountdownTimer.formatTime 61000)
       = CountdownTimer.num n :: rest
       /\ 0 < n.
Proof.
  split.
  - apply (formatDisplay_leading 999); lia.
  - apply (formatDisplay_leading 61000); lia.
Defined.

(** * The browse views *)

(** X13. The view that [browseAuctions] builds of an auction: the time
    remaining is never negative; the auction is flagged as ending soon
    exactly when it ends in less than an hour and has not ended; it is
    shown as [ended] exactly when its end time has come or it is stored as
    ended, and is then not flagged; the flag is the one the countdown
    computes at the same instant; price and bid count are shown as
    stored. *)
Theorem withTime_view (t : Z) (a : Auction.t) (e : bool) :
  0 <= browse.timeRemaining (browse.withTime t a)
  /\ (browse.isEndingSoon (browse.withTime t a) = true
      <-> 0 < Auction.endTime a - t < 3600000)
  /\ (Auction.status (browse.doc (browse.withTime t a)) = Auction.ended
      <-> Auction.endTime a <= t \/ Auction.status a = Auction.ended)
  /\ (Auction.endTime a <= t ->
      browse.timeRemaining (browse.withTime t a) = 0
      /\ browse.isEndingSoon (browse.withTime t a) = false)
  /\ browse.isEndingSoon (browse.withTime t a)
     = CountdownTimer.isEndingSoon
         (CountdownTimer.calculateTimeRemaining e t (Auction.endTime a)).1.2
  /\ Auction.currentPrice (browse.doc (browse.withTime t a)) = Auction.currentPrice a
  /\ Auction.totalBids (browse.doc (browse.withTime t a)) = Auction.totalBids a.
Proof.
  unfold browse.withTime. simpl. split; [lia|]. split.
  { rewrite andb_true_iff, !bool_decide_eq_true. lia. }
  split.
  { case_bool_decide as Hrem; split.
    - intros _. left. lia.
    - reflexivity.
    - intros Hst. by right.
    - intros [Hle | Hst]; [lia | done]. }
  split.
  { intros Hle. split; [lia|].
    apply andb_false_iff. left. apply bool_decide_eq_false. lia. }
  split; [|done].
  unfold CountdownTimer.calculateTimeRemaining, CountdownTimer.isEndingSoon.
  destruct (decide (Auction.endTime a - t <= 0)) as [Hrem | Hrem].
  - rewrite (bool_decide_eq_true_2 (Auction.endTime a - t <= 0)) by done.
    rewrite (bool_decide_eq_false_2 (0 < Auction.endTime a - t)) by lia.
    reflexivity.
  - rewrite (bool_decide_eq_false_2 (Auction.endTime a - t <= 0)) by done.
    simpl. rewrite formatTime_components by lia. reflexivity.
Qed.

(** X14. The end instant.  For an active auction, at the very millisecond
    of its end time the method [placeBid] of the auction still returns
    ([isActive] holds, [hasEnded] does not, an amount above the current
    price and not below the sum of price and increment, as the code
    computes it on doubles, passes every check) although no time remains,
    the browse view already shows the auction as [ended] and the countdown
    as expired; this is the only instant at which the browse view says
    [ended] while [isActive] holds. *)
Theorem end_instant (a : Auction.t) (amt : Q) :
  Auction.status a = Auction.active ->
  Auction.startTime a <= Auction.endTime a ->
  (Auction.currentPrice a < amt)%Q ->
  (Number.add (Auction.currentPrice a) (Auction.minIncrement a) <= amt)%Q ->
  (Auction.isActive (Auction.endTime a) a = true
   /\ Auction.hasEnded (Auction.endTime a) a = false
   /\ Auction.getTimeRemaining (Auction.endTime a) (Auction.endTime a) a = 0
   /\ Auction.placeBid (Auction.endTime a) amt a
      = Return (Auction.set_totalBids (Auction.totalBids a + 1)
                  (Auction.set_currentPrice amt a)))
  /\ (Auction.status (browse.doc (browse.withTime (Auction.endTime a) a)) = Auction.ended
      /\ (CountdownTimer.calculateTimeRemaining false
            (Auction.endTime a) (Auction.endTime a)).1.1 = true)
  /\ (forall t,
        Auction.isActive t a = true
        /\ Auction.status (browse.doc (browse.withTime t a)) = Auction.ended
        <-> t = Auction.endTime a).
Proof.
  intros Hst Hse Hgt Hge.
  assert (Hact : Auction.isActive (Auction.endTime a) a = true)
    by (apply isActive_true; split; [done | lia]).
  split; [|split].
  - split; [done|]. split; [apply bool_decide_eq_false; lia|].
    split.
    + unfold Auction.getTimeRemaining, Auction.hasEnded.
      rewrite bool_decide_eq_false_2 by lia. lia.
    + apply Auction_placeBid_Return. done.
  - split.
    + unfold browse.withTime. simpl. by rewrite bool_decide_eq_true_2 by lia.
    + unfold CountdownTimer.calculateTimeRemaining.
      by rewrite bool_decide_eq_true_2 by lia.
  - intros t. rewrite isActive_true. unfold browse.withTime. simpl.
    case_bool_decide as Hrem; split.
    + intros [[_ Hwin] _]. lia.
    + intros ->. split; [split; [done | lia] | done].
    + intros [_ Hended]. congruence.
    + intros ->. lia.
Qed.

Lemma end_instant_witness :
  Auction.placeBid 2000 12%Q (sample_auction Auction.active 0)
  = Return (Auction.set_totalBids 1
              (Auction.set_currentPrice 12%Q (sample_auction Auction.active 0)))
  /\ Auction.status (browse.doc (browse.withTime 2000 (sample_auction Auction.active 0)))
     = Auction.ended.
Proof.
  destruct (end_instant (sample_auction Auction.active 0) 12%Q)
    as ((_ & _ & _ & Hbid) & (Hview & _) & _); try concrete.
  split; [exact Hbid | exact Hview].
Defined.

(** ** Pages *)

Lemma pageCount_pos (total : Z) (p : positive) :
  browse.pageCount total (Zpos p) = - ((- total) / Zpos p).
Proof.
  unfold browse.pageCount, Qceiling, Qfloor, Qopp, Qdiv, Qinv, Qmult, inject_Z.
  simpl. by rewrite Z.mul_1_r.
Qed.

(** X15. With a positive page size, the number of pages is the least
    number of pages that hold all results (none for no result); there is
    a next page exactly when results remain after the current one, that
    is, when the next page's [skip] is still inside the results; and the
    last page is never empty. *)
Theorem pagination_pages (page limit total : Z) :
  0 < limit ->
  0 <= total ->
  browse.pages (browse.pagination page limit total) = (total + limit - 1) / limit
  /\ (browse.hasNext (browse.pagination page limit total) = true
      <-> browse.skip (page + 1) limit < total)
  /\ (browse.hasPrev (browse.pagination page limit total) = true
      <-> 0 < browse.skip page limit)
  /\ (total = 0 -> browse.pages (browse.pagination page limit total) = 0)
  /\ (0 < total ->
      browse.skip (browse.pages (browse.pagination page limit total)) limit < total
      /\ total <= browse.pages (browse.pagination page limit total) * limit).
Proof.
  intros Hl Ht. destruct limit as [|p|p]; try lia.
  unfold browse.pagination, browse.skip. simpl.
  rewrite pageCount_pos, !bool_decide_eq_true.
  pose proof (Z.div_mod (- total) (Z.pos p) ltac:(lia)) as D.
  pose proof (Z.mod_pos_bound (- total) (Z.pos p) ltac:(lia)) as B.
  set (k := - total / Z.pos p) in *.
  assert (Hpages : - k = (total + Z.pos p - 1) / Z.pos p).
  { apply Z.div_unique with (r := Z.pos p - 1 - (- total) mod Z.pos p); lia. }
  split; [done|]. repeat split; intros; nia.
Qed.

Lemma pagination_pages_witness :
  browse.pages (browse.pagination 2 12 25) = 3
  /\ browse.hasNext (browse.pagination 2 12 25) = true
  /\ browse.hasNext (browse.pagination 3 12 25) = false.
Proof.
  destruct (pagination_pages 2 12 25) as (Hp & Hn & _); [lia | lia |].
  destruct (pagination_pages 3 12 25) as (_ & Hn3 & _); [lia | lia |].
  split; [rewrite Hp; reflexivity|]. split.
  - apply Hn. unfold browse.skip. lia.
  - apply not_true_is_false. intros E.
    apply Hn3 in E. unfold browse.skip in E. lia.
Defined.

(** ** Ending soon *)

(** X16. [getEndingSoonAuctions] lists at most six auctions; each is
    stored, has status [active] and ends between now and one hour from
    now, both ends included, so it takes bids once started; the browse
    view flags it as ending soon unless it ends this very instant or in
    exactly one hour.  When at most six auctions match, all of them are
    listed. *)
Theorem getEndingSoonAuctions_listed
    (sort_endTime : list (string * Auction.t) -> list (string * Auction.t))
    (t : Z) (s : Store) :
  (forall l, sort_endTime l ≡ₚ l) ->
  (length (browse.getEndingSoonAuctions sort_endTime t s) <= 6)%nat
  /\ (forall i a,
        (i, a) ∈ browse.getEndingSoonAuctions sort_endTime t s ->
        auctions s !! i = Some a
        /\ Auction.status a = Auction.active
        /\ 0 <= Auction.endTime a - t <= 3600000
        /\ (Auction.startTime a <= t -> Auction.isActive t a = true)
        /\ (browse.isEndingSoon (browse.withTime t a) = true
            <-> Auction.endTime a <> t /\ Auction.endTime a - t <> 3600000))
  /\ ((length (filter (fun ia => browse.endsWithinTheHour t ia.2 = true)
                 (map_to_list (auctions s))) <= 6)%nat ->
      forall i a,
        auctions s !! i = Some a ->
        browse.endsWithinTheHour t a = true ->
        (i, a) ∈ browse.getEndingSoonAuctions sort_endTime t s).
Proof.
  intros Hperm. unfold browse.getEndingSoonAuctions. split; [|split].
  - rewrite length_take. lia.
  - intros i a Hin.
    apply subseteq_take in Hin. rewrite Hperm in Hin.
    apply list_elem_of_filter in Hin as [Hq Hin]. simpl in Hq.
    apply elem_of_map_to_list in Hin.
    unfold browse.endsWithinTheHour in Hq.
    rewrite !andb_true_iff, !bool_decide_eq_true in Hq.
    destruct Hq as [[Hst Hlo] Hhi].
    split; [done|]. split; [done|]. split; [lia|]. split.
    + intros Hstart. apply isActive_true. split; [done | lia].
    + unfold browse.withTime. simpl.
      rewrite andb_true_iff, !bool_decide_eq_true. lia.
  - intros Hlen i a Ha Hq.
    rewrite take_ge by (rewrite Hperm; lia).
    rewrite Hperm. apply list_elem_of_filter. split; [done|].
    by apply elem_of_map_to_list.
Qed.

Lemma getEndingSoonAuctions_listed_witness :
  (auction1, sample_auction Auction.active 0)
    ∈ browse.getEndingSoonAuctions (fun l => l) 1500 (sample_store Auction.active 0).
Proof.
  destruct (getEndingSoonAuctions_listed (fun l => l) 1500
              (sample_store Auction.active 0)) as (_ & _ & Hall).
  { intros l. reflexivity. }
  apply Hall; [| reflexivity | reflexivity].
  vm_compute. lia.
Defined.

(** * The bid history *)

(** X17. For a valid id [getBidHistory] always answers with a history,
    whether or not an auction is stored under the id (there is no 404,
    an unknown auction has an empty history): [total] is the length of the
    list, which is the number of bids logged for that id, and every entry
    belongs to that auction.  An invalid id is answered 400. *)
Theorem getBidHistory_total (isValid : string -> bool)
    (sort_createdAt_desc : list Bid.t -> list Bid.t)
    (users : gmap string bidHistory.Profile) (i : string) (s : Store) :
  (forall l, sort_createdAt_desc l ≡ₚ l) ->
  (isValid i = false ->
   forall thrown,
     bidHistory.getBidHistory isValid sort_createdAt_desc users i thrown s
     = bidHistory.Failed (message_only 400 (text "Invalid auction ID")))
  /\ (isValid i = true ->
      exists entries,
        bidHistory.getBidHistory isValid sort_createdAt_desc users i None s
        = bidHistory.History (length entries) entries
        /\ Z.of_nat (length entries) = bidCount i s
        /\ (forall e, e ∈ entries -> bidHistory.auction e = i)
        /\ (bidCount i s = 0 -> entries = [])).
Proof.
  intros Hperm. unfold bidHistory.getBidHistory. split.
  - intros -> thrown. reflexivity.
  - intros ->. simpl. eexists. split; [reflexivity|].
    rewrite length_fmap, (Permutation_length (Hperm _)).
    split; [reflexivity|]. split.
    + intros e He. apply list_elem_of_fmap in He as (b & -> & Hb).
      rewrite Hperm in Hb. apply list_elem_of_filter in Hb as [Hb _]. done.
    + unfold bidCount. intros Hz.
      assert (Hnil : sort_createdAt_desc
                       (filter (fun b => Bid.auction b = i) (bids s)) = []).
      { apply Permutation_nil_r. rewrite Hperm.
        destruct (filter _ (bids s)); [done | simpl in Hz; lia]. }
      by rewrite Hnil.
Qed.

Lemma getBidHistory_total_witness :
  bidHistory.getBidHistory sample_isValid (@rev Bid.t) ∅ "nope" None
    (sample_store Auction.active 0)
  = bidHistory.Failed (message_only 400 (text "Invalid auction ID"))
  /\ exists entries,
       bidHistory.getBidHistory sample_isValid (@rev Bid.t) ∅ item1 None
         (sample_store Auction.active 0)
       = bidHistory.History (length entries) entries
       /\ entries = [].
Proof.
  destruct (getBidHistory_total sample_isValid (@rev Bid.t) ∅ "nope"
              (sample_store Auction.active 0)) as [Hbad _].
  { intros l. symmetry. apply Permutation_rev. }
  destruct (getBidHistory_total sample_isValid (@rev Bid.t) ∅ item1
              (sample_store Auction.active 0)) as [_ Hok].
  { intros l. symmetry. apply Permutation_rev. }
  split; [apply Hbad; reflexivity|].
  destruct Hok as (entries & Heq & _ & _ & Hnil); [reflexivity|].
  exists entries. split; [exact Heq | apply Hnil; reflexivity].
Defined.



(** * Updating an auction *)

(** Every way [updateAuction] can end: nothing written; or, for the
    seller or an admin and an auction that has not started or is still
    pending, the item patched or not, and then the auction patched or
    not; a patch carries a new end time only if it is after the start
    time. *)
Lemma updateAuction_writes (req : auctionUpdate.Request) (env : auctionUpdate.Env)
    (s : Store) :
  (auctionUpdate.updateAuction req env s).1 = s
  \/ exists a s1,
       auctions s !! auctionUpdate.id req = Some a
       /\ (Auction.seller a = auctionUpdate.userId req
           \/ auctionUpdate.role req = "admin"%string)
       /\ (Auction.hasStarted (auctionUpdate.now env) a = false
           \/ Auction.status a = Auction.pending)
       /\ auctionUpdate.findById_throws env = None
       /\ (s1 = s
           \/ (is_Some (items s !! Auction.item a)
               /\ auctionUpdate.has_keys (auctionUpdate.itemUpdates (auctionUpdate.body req))
                  = true
               /\ auctionUpdate.item_update_throws env = None
               /\ s1 = auctionUpdate.Item_findByIdAndUpdate (Auction.item a)
                         (auctionUpdate.itemUpdates (auctionUpdate.body req)) s))
       /\ ((auctionUpdate.updateAuction req env s).1 = s1
           \/ exists u,
                (auctionUpdate.updateAuction req env s).1
                = auctionUpdate.Auction_findByIdAndUpdate (auctionUpdate.id req) u
                    (auctionUpdate.stamp env) s1
                /\ auctionUpdate.auction_update_throws env = None
                /\ (forall t, auctionUpdate.set_endTime u = Some t ->
                      Auction.startTime a < t)).
Proof.
  unfold auctionUpdate.updateAuction.
  destruct (auctionUpdate.findById_throws env); [by left|].
  destruct (auctions s !! auctionUpdate.id req) as [a|] eqn:Ha; [|by left].
  destruct (negb (bool_decide (Auction.seller a = auctionUpdate.userId req))
            && negb (bool_decide (auctionUpdate.role req = "admin"%string)))
    eqn:Hauth; [by left|].
  destruct (Auction.hasStarted (auctionUpdate.now env) a
            && negb (bool_decide (Auction.status a = Auction.pending)))
    eqn:Hstarted; [by left|].
  destruct (auctionUpdate.update_item req env a s) as [s1|err] eqn:Hitem; [|by left].
  right. exists a, s1. split; [done|]. split.
  { apply andb_false_iff in Hauth as [H|H]; apply negb_false_iff in H;
      apply bool_decide_eq_true in H; auto. }
  split.
  { apply andb_false_iff in Hstarted as [H|H]; [by left|].
    apply negb_false_iff, bool_decide_eq_true in H. by right. }
  split; [done|]. split.
  - revert Hitem. unfold auctionUpdate.update_item.
    destruct (items s !! Auction.item a) as [it|]; [|intros [= <-]; by left].
    destruct (auctionUpdate.has_keys _) eqn:Hkeys; [|intros [= <-]; by left].
    destruct (auctionUpdate.item_update_throws env); [done|].
    intros [= <-]. right. eauto.
  - unfold auctionUpdate.update_auction.
    destruct (auctionUpdate.auctionUpdates req a) as [u|] eqn:Hu; [|by left].
    destruct (auctionUpdate.auction_update_throws env); [by left|].
    right. exists u. split; [done|]. split; [done|].
    revert Hu. unfold auctionUpdate.auctionUpdates.
    destruct (auctionUpdate.given_time (auctionUpdate.endTime (auctionUpdate.body req)))
      as [t1|].
    + destruct (bool_decide (t1 <= Auction.startTime a)) eqn:Hend; [done|].
      apply bool_decide_eq_false in Hend. intros [= <-] t [= <-]. lia.
    + intros [= <-] t [=].
Qed.

(** X19. [updateAuction] never touches the bid log and never adds or
    removes an auction: an id that had no auction has none afterwards, and
    an auction that was stored still is.  Of a stored auction it leaves
    [currentPrice], [totalBids], [status], [seller], [startTime] and the
    item reference as they are (a new start price does not move the
    current price), and it leaves every auction but the addressed one
    untouched. *)
Theorem updateAuction_frame (req : auctionUpdate.Request) (env : auctionUpdate.Env)
    (s : Store) :
  bids (auctionUpdate.updateAuction req env s).1 = bids s
  /\ (forall i, auctions s !! i = None ->
        auctions (auctionUpdate.updateAuction req env s).1 !! i = None)
  /\ (forall i a, auctions s !! i = Some a ->
        exists a',
          auctions (auctionUpdate.updateAuction req env s).1 !! i = Some a'
          /\ Auction.currentPrice a' = Auction.currentPrice a
          /\ Auction.totalBids a' = Auction.totalBids a
          /\ Auction.status a' = Auction.status a
          /\ Auction.seller a' = Auction.seller a
          /\ Auction.startTime a' = Auction.startTime a
          /\ Auction.item a' = Auction.item a
          /\ (i <> auctionUpdate.id req -> a' = a)).
Proof.
  destruct (updateAuction_writes req env s)
    as [-> | (b & s1 & Hb & _ & _ & _ & Hs1 & Hr)].
  { split; [done|]. split; [done|]. intros i a Ha. exists a. by repeat split. }
  assert (Hs1' : bids s1 = bids s /\ auctions s1 = auctions s).
  { destruct Hs1 as [-> | (_ & _ & _ & ->)]; done. }
  destruct Hs1' as [Hbids Hauc].
  destruct Hr as [-> | (u & -> & _ & _)].
  { split; [done|]. rewrite Hauc. split; [done|].
    intros i a Ha. exists a. by repeat split. }
  simpl. split; [done|]. rewrite Hauc. split.
  - intros i Hi. rewrite lookup_alter. case_decide as Heq; [|done].
    subst i. by rewrite Hi.
  - intros i a Ha. rewrite lookup_alter. case_decide as Hi.
    + subst i. rewrite Ha. simpl. eexists. split; [reflexivity|]. by repeat split.
    + exists a. by repeat split.
Qed.

Lemma updateAuction_frame_witness :
  auctions (auctionUpdate.updateAuction
              (auctionUpdate.mkRequest auction1 seller1 "seller" sample_body_prices)
              (quiet 500) (sample_store Auction.pending 0)).1 !! item1 = None
  /\ exists a',
       auctions (auctionUpdate.updateAuction
                   (auctionUpdate.mkRequest auction1 seller1 "seller" sample_body_prices)
                   (quiet 500) (sample_store Auction.pending 0)).1 !! auction1 = Some a'
       /\ Auction.currentPrice a' = 10%Q
       /\ Auction.startPrice a' = 50%Q.
Proof.
  destruct (updateAuction_frame
              (auctionUpdate.mkRequest auction1 seller1 "seller" sample_body_prices)
              (quiet 500) (sample_store Auction.pending 0))
    as (_ & Hnone & Hkept).
  split; [apply Hnone; reflexivity|].
  destruct (Hkept auction1 (sample_auction Auction.pending 0))
    as (a' & Ha' & Hp & _); [reflexivity|].
  exists a'. split; [exact Ha'|]. split; [exact Hp|].
  vm_compute in Ha'. injection Ha' as <-. reflexivity.
Defined.

(** X20. [updateAuction] writes only for the seller of the auction or an
    admin, and only while the auction has not started or is still
    [pending]; any other request leaves the database as it was. *)
Theorem updateAuction_guard (req : auctionUpdate.Request) (env : auctionUpdate.Env)
    (s : Store) :
  (auctionUpdate.updateAuction req env s).1 <> s ->
  exists a,
    auctions s !! auctionUpdate.id req = Some a
    /\ (Auction.seller a = auctionUpdate.userId req
        \/ auctionUpdate.role req = "admin"%string)
    /\ (auctionUpdate.now env < Auction.startTime a
        \/ Auction.status a = Auction.pending)
    /\ auctionUpdate.findById_throws env = None.
Proof.
  intros Hne.
  destruct (updateAuction_writes req env s)
    as [Heq | (a & s1 & Ha & Hauth & Hstarted & Hf & _)]; [done|].
  exists a. repeat split; try done.
  destruct Hstarted as [H | H]; [left | by right].
  unfold Auction.hasStarted in H. apply bool_decide_eq_false in H. lia.
Qed.

Lemma updateAuction_guard_witness :
  exists a,
    auctions (sample_store Auction.pending 0) !! auction1 = Some a
    /\ (Auction.seller a = seller1 \/ "seller"%string = "admin"%string)
    /\ (500 < Auction.startTime a \/ Auction.status a = Auction.pending).
Proof.
  destruct (updateAuction_guard
              (auctionUpdate.mkRequest auction1 seller1 "seller" (sample_body 3000))
              (quiet 500) (sample_store Auction.pending 0))
    as (a & Ha & Hauth & Hst & _).
  { vm_compute. discriminate. }
  exists a. auto.
Defined.

(** X21. [updateAuction] keeps the end time after the start time: if it
    was for a stored auction, it still is after the request, whatever end
    time the request asks for. *)
Theorem updateAuction_endTime (req : auctionUpdate.Request) (env : auctionUpdate.Env)
    (s : Store) (i : string) (a : Auction.t) :
  auctions s !! i = Some a ->
  Auction.startTime a < Auction.endTime a ->
  exists a',
    auctions (auctionUpdate.updateAuction req env s).1 !! i = Some a'
    /\ Auction.startTime a' < Auction.endTime a'.
Proof.
  intros Ha Hlt.
  destruct (updateAuction_writes req env s)
    as [-> | (b & s1 & Hb & _ & _ & _ & Hs1 & Hr)]; [by exists a|].
  assert (Hauc : auctions s1 = auctions s).
  { destruct Hs1 as [-> | (_ & _ & _ & ->)]; done. }
  destruct Hr as [-> | (u & -> & _ & Hu)].
  { rewrite Hauc. by exists a. }
  simpl. rewrite Hauc, lookup_alter. case_decide as Hi; [|by exists a].
  subst i. rewrite Ha. simpl. eexists. split; [reflexivity|]. simpl.
  assert (b = a) as -> by congruence.
  destruct (auctionUpdate.set_endTime u) as [t|] eqn:Ht; simpl; [|done].
  by apply Hu.
Qed.

Lemma updateAuction_endTime_witness :
  exists a',
    auctions (auctionUpdate.updateAuction
                (auctionUpdate.mkRequest auction1 seller1 "seller" (sample_body 3000))
                (quiet 500) (sample_store Auction.pending 0)).1 !! auction1 = Some a'
    /\ Auction.startTime a' < Auction.endTime a'.
Proof.
  apply (updateAuction_endTime
           (auctionUpdate.mkRequest auction1 seller1 "seller" (sample_body 3000))
           (quiet 500) (sample_store Auction.pending 0) auction1
           (sample_auction Auction.pending 0)); concrete.
Defined.

(** X22. A request that names item fields and an end time, other than
    the number 0 that [if (endTime)] skips, not after the start time is
    answered 400 "End time must be after start time", but
    its item fields are already written: the refusal comes after the item
    update.  The auction itself is not changed. *)
Theorem updateAuction_refused_after_item (req : auctionUpdate.Request)
    (env : auctionUpdate.Env) (s : Store) (a : Auction.t) (it : Item.t) (t : Z) :
  auctionUpdate.findById_throws env = None ->
  auctions s !! auctionUpdate.id req = Some a ->
  Auction.seller a = auctionUpdate.userId req
  \/ auctionUpdate.role req = "admin"%string ->
  auctionUpdate.now env < Auction.startTime a \/ Auction.status a = Auction.pending ->
  items s !! Auction.item a = Some it ->
  auctionUpdate.has_keys (auctionUpdate.itemUpdates (auctionUpdate.body req)) = true ->
  auctionUpdate.item_update_throws env = None ->
  auctionUpdate.endTime (auctionUpdate.body req) = Some t ->
  t <> 0 ->
  t <= Auction.startTime a ->
  (auctionUpdate.updateAuction req env s).2
  = auctionUpdate.Failed
      (auctionController.failure 400 "End time must be after start time")
  /\ items (auctionUpdate.updateAuction req env s).1 !! Auction.item a
     = Some (auctionUpdate.Item_patch
               (auctionUpdate.itemUpdates (auctionUpdate.body req)) it)
  /\ auctions (auctionUpdate.updateAuction req env s).1 = auctions s.
Proof.
  intros Hf Ha Hauth Hst Hit Hkeys Hiu Hend Hnz Hle.
  unfold auctionUpdate.updateAuction. rewrite Hf, Ha.
  assert (negb (bool_decide (Auction.seller a = auctionUpdate.userId req))
          && negb (bool_decide (auctionUpdate.role req = "admin"%string))
          = false) as ->.
  { apply andb_false_iff. destruct Hauth as [Ho|Ho];
      [left | right]; by rewrite bool_decide_eq_true_2. }
  assert (Auction.hasStarted (auctionUpdate.now env) a
          && negb (bool_decide (Auction.status a = Auction.pending)) = false) as ->.
  { apply andb_false_iff. destruct Hst as [H|H].
    - left. apply bool_decide_eq_false. lia.
    - right. by rewrite bool_decide_eq_true_2. }
  unfold auctionUpdate.update_item. rewrite Hit, Hkeys, Hiu.
  unfold auctionUpdate.update_auction, auctionUpdate.auctionUpdates.
  rewrite Hend. simpl. rewrite (bool_decide_eq_false_2 (t = 0)) by done.
  rewrite bool_decide_eq_true_2 by done. simpl.
  split; [done|]. split; [|done].
  rewrite lookup_alter, decide_True by done. by rewrite Hit.
Qed.

Lemma updateAuction_refused_after_item_witness :
  (auctionUpdate.updateAuction
     (auctionUpdate.mkRequest auction1 seller1 "seller" (sample_body 800))
     (quiet 500) (sample_store Auction.pending 0)).2
  = auctionUpdate.Failed
      (auctionController.failure 400 "End time must be after start time")
  /\ Item.title
       <$> items (auctionUpdate.updateAuction
                    (auctionUpdate.mkRequest auction1 seller1 "seller" (sample_body 800))
                    (quiet 500) (sample_store Auction.pending 0)).1 !! item1
     = Some "Vintage camera, boxed"%string.
Proof.
  destruct (updateAuction_refused_after_item
              (auctionUpdate.mkRequest auction1 seller1 "seller" (sample_body 800))
              (quiet 500) (sample_store Auction.pending 0)
              (sample_auction Auction.pending 0) sample_item 800)
    as (Hr & Hi & _); try concrete.
  { left; concrete. }
  split; [exact Hr|].
  change item1 with (Auction.item (sample_auction Auction.pending 0)).
  rewrite Hi. reflexivity.
Defined.

(** X26. With the validator of [endTime] run on the update, a request
    that carries an end time is never answered with success and changes no
    auction: the end time of an auction cannot be moved through
    [updateAuction]. *)
Theorem updateAuction_endTime_refused (req : auctionUpdate.Request)
    (env : auctionUpdate.Env) (s : Store) (t : Z) :
  auctionUpdate.update_validated req env ->
  auctionUpdate.endTime (auctionUpdate.body req) = Some t ->
  t <> 0 ->
  auctions (auctionUpdate.updateAuction req env s).1 = auctions s
  /\ exists r, (auctionUpdate.updateAuction req env s).2 = auctionUpdate.Failed r.
Proof.
  intros Hval Hend Hnz.
  assert (Hgiven : auctionUpdate.given_time (auctionUpdate.endTime (auctionUpdate.body req))
                   = Some t).
  { rewrite Hend. simpl. by rewrite bool_decide_eq_false_2. }
  assert (Hthrows : auctionUpdate.auction_update_throws env <> None).
  { apply Hval. rewrite Hgiven. by eexists. }
  unfold auctionUpdate.updateAuction.
  destruct (auctionUpdate.findById_throws env); [by eauto|].
  destruct (auctions s !! auctionUpdate.id req) as [a|]; [|by eauto].
  destruct (_ && _); [by eauto|].
  destruct (_ && _); [by eauto|].
  destruct (auctionUpdate.update_item req env a s) as [s1|err] eqn:Hitem; [|by eauto].
  assert (Hauc : auctions s1 = auctions s).
  { revert Hitem. unfold auctionUpdate.update_item.
    destruct (items s !! Auction.item a); [|by intros [= <-]].
    destruct (auctionUpdate.has_keys _); [|by intros [= <-]].
    destruct (auctionUpdate.item_update_throws env); [done|]. by intros [= <-]. }
  unfold auctionUpdate.update_auction.
  destruct (auctionUpdate.auctionUpdates req a); [|by eauto].
  destruct (auctionUpdate.auction_update_throws env); [by eauto | done].
Qed.

Lemma updateAuction_endTime_refused_witness :
  Auction.endTime
    <$> auctions (auctionUpdate.updateAuction
                    (auctionUpdate.mkRequest auction1 seller1 "seller" (sample_body 3000))
                    (unquiet 500) (sample_store Auction.pending 0)).1 !! auction1
  = Some 2000
  /\ exists r,
       (auctionUpdate.updateAuction
          (auctionUpdate.mkRequest auction1 seller1 "seller" (sample_body 3000))
          (unquiet 500) (sample_store Auction.pending 0)).2 = auctionUpdate.Failed r.
Proof.
  destruct (updateAuction_endTime_refused
              (auctionUpdate.mkRequest auction1 seller1 "seller" (sample_body 3000))
              (unquiet 500) (sample_store Auction.pending 0) 3000)
    as (Hauc & Hr).
  - intros _. discriminate.
  - reflexivity.
  - discriminate.
  - split; [by rewrite Hauc | exact Hr].
Defined.

(** * Further invariants *)

Lemma step_seller (isValid : string -> bool) (op : Op) (s : Store)
    (i : string) (a' : Auction.t) :
  auctions (step isValid s op) !! i = Some a' ->
  exists a, auctions s !! i = Some a /\ Auction.seller a' = Auction.seller a.
Proof.
  intros Ha'.
  destruct (step_lookup_inv isValid op s i a' Ha') as [a Ha].
  exists a. split; [done|].
  destruct (step_effect isValid op s i a Ha) as (b & Hb & Hcase).
  assert (b = a') as -> by congruence.
  destruct Hcase as [(-> & _) | [(amt & t & -> & _) | (t & -> & _)]]; done.
Qed.

Lemma step_no_self_bids (isValid : string -> bool) (op : Op) (s : Store) :
  no_self_bids s -> no_self_bids (step isValid s op).
Proof.
  intros Hs b a' Hb Ha'.
  destruct (step_seller isValid op s _ a' Ha') as (a & Ha & ->).
  assert (Hold : b ∈ bids s -> Bid.bidder b <> Auction.seller a)
    by (intros Hin; by apply (Hs b a)).
  destruct op as [req env | req env]; simpl in Hb.
  - destruct (placeBid_writes isValid req env s)
      as [[Heq _] | (c & c' & Hc & Hne & _ & [(Heq & _) | (Heq & _)])];
      rewrite Heq in Hb; simpl in Hb; [by apply Hold | |].
    all: apply elem_of_app in Hb as [Hin | Hin]; [by apply Hold|].
    all: apply list_elem_of_singleton in Hin as ->; simpl in *.
    all: assert (c = a) as -> by congruence; congruence.
  - destruct (cancelAuction_writes req env s)
      as [[Heq _] | (c & _ & _ & _ & _ & _ & [(err & _ & Heq) | (_ & Heq & _)])];
      rewrite Heq in Hb; simpl in Hb; by apply Hold.
Qed.

(** X23. If no logged bid is by the seller of its auction, this is still
    so after any history of bids and cancellations: the engine never logs
    a seller's bid on the seller's own auction, not even when the save
    that follows fails. *)
Theorem run_no_self_bids (isValid : string -> bool) (ops : list Op) (s : Store) :
  no_self_bids s -> no_self_bids (run isValid ops s).
Proof.
  revert s. induction ops as [|op ops IH]; intros s Hs; simpl; [done|].
  apply IH. by apply step_no_self_bids.
Qed.

Lemma run_no_self_bids_witness :
  no_self_bids
    (run sample_isValid
       [PlaceBid (mkRequest auction1 seller1 12%Q) (calm 1200);
        PlaceBid (mkRequest auction1 bidder1 12%Q)
          (mkEnv 1300 1301 None None (Some (text "save failed")) None)]
       (sample_store Auction.active 0)).
Proof.
  apply (run_no_self_bids sample_isValid).
  intros b a Hb. simpl in Hb. by apply elem_of_nil in Hb.
Defined.

(** X24. [getTimeRemaining] reads the clock twice.  With a clock that
    does not run backwards its result is negative exactly when the end
    time passes between the two readings; otherwise it is the time left
    at the second reading, or 0 once the auction has ended; when both
    readings are the same instant it is never negative. *)
Theorem getTimeRemaining_sign (t t' : Z) (a : Auction.t) :
  t <= t' ->
  (Auction.getTimeRemaining t t' a < 0 <-> t <= Auction.endTime a < t')
  /\ (Auction.endTime a < t -> Auction.getTimeRemaining t t' a = 0)
  /\ (t' <= Auction.endTime a ->
      Auction.getTimeRemaining t t' a = Auction.endTime a - t')
  /\ 0 <= Auction.getTimeRemaining t t a.
Proof.
  intros Hmono. unfold Auction.getTimeRemaining, Auction.hasEnded.
  repeat split; repeat case_bool_decide; lia.
Qed.

Lemma getTimeRemaining_sign_witness :
  Auction.getTimeRemaining 2000 2001 (sample_auction Auction.active 0) < 0
  /\ 0 <= Auction.getTimeRemaining 2000 2000 (sample_auction Auction.active 0).
Proof.
  destruct (getTimeRemaining_sign 2000 2001 (sample_auction Auction.active 0))
    as (Hneg & _); [lia|].
  destruct (getTimeRemaining_sign 2000 2000 (sample_auction Auction.active 0))
    as (_ & _ & _ & Hnn); [lia|].
  split; [apply Hneg; simpl; lia | exact Hnn].
Defined.

(** * The auction card *)

(** X25. [getImageUrl] never yields an empty address: without images, or
    when the chosen image has no address, it is the default picture; the
    chosen image is the first one marked primary, and the first image
    when none is marked. *)
Theorem getImageUrl_chosen (images : option (list AuctionCard.Image)) :
  AuctionCard.getImageUrl images <> ""%string
  /\ (images = None \/ images = Some [] ->
      AuctionCard.getImageUrl images = "default-auction.jpg"%string)
  /\ (forall before img after,
        images = Some (before ++ img :: after) ->
        Forall (fun i => AuctionCard.isPrimary i = false) before ->
        AuctionCard.isPrimary img = true ->
        AuctionCard.getImageUrl images = AuctionCard.or_default (AuctionCard.url img))
  /\ (forall first rest,
        images = Some (first :: rest) ->
        Forall (fun i => AuctionCard.isPrimary i = false) (first :: rest) ->
        AuctionCard.getImageUrl images = AuctionCard.or_default (AuctionCard.url first)).
Proof.
  assert (Hdef : forall x, AuctionCard.or_default x <> ""%string).
  { intros [u|]; simpl; [case_bool_decide|]; done. }
  assert (Hfind : forall before img after,
    Forall (fun i => AuctionCard.isPrimary i = false) before ->
    AuctionCard.isPrimary img = true ->
    List.find AuctionCard.isPrimary (before ++ img :: after) = Some img).
  { intros before img after Hb Hp. induction Hb as [|x l Hx _ IH]; simpl.
    - by rewrite Hp.
    - by rewrite Hx. }
  assert (Hnone : forall l,
    Forall (fun i => AuctionCard.isPrimary i = false) l ->
    List.find AuctionCard.isPrimary l = None).
  { intros l Hl. induction Hl as [|x l Hx _ IH]; simpl; [done|]. by rewrite Hx. }
  split; [|split; [|split]].
  - destruct images as [[|first rest]|]; simpl; [done | apply Hdef | done].
  - intros [-> | ->]; reflexivity.
  - intros before img after -> Hb Hp.
    assert (Hf := Hfind before img after Hb Hp).
    unfold AuctionCard.getImageUrl.
    destruct (before ++ img :: after) as [|first rest] eqn:Hl.
    + by destruct before.
    + by rewrite Hf.
  - intros first rest -> Hall.
    unfold AuctionCard.getImageUrl. by rewrite (Hnone _ Hall).
Qed.

Lemma getImageUrl_chosen_witness :
  AuctionCard.getImageUrl
    (Some [AuctionCard.mkImage (Some "a.jpg"%string) false;
           AuctionCard.mkImage (Some "b.jpg"%string) true;
           AuctionCard.mkImage (Some "c.jpg"%string) true])
  = "b.jpg"%string
  /\ AuctionCard.getImageUrl (Some [AuctionCard.mkImage (Some ""%string) false])
     = "default-auction.jpg"%string.
Proof.
  split.
  - apply (getImageUrl_chosen
             (Some [AuctionCard.mkImage (Some "a.jpg"%string) false;
                    AuctionCard.mkImage (Some "b.jpg"%string) true;
                    AuctionCard.mkImage (Some "c.jpg"%string) true]))
      with (before := [AuctionCard.mkImage (Some "a.jpg"%string) false])
           (img := AuctionCard.mkImage (Some "b.jpg"%string) true)
           (after := [AuctionCard.mkImage (Some "c.jpg"%string) true]).
    + reflexivity.
    + repeat constructor.
    + reflexivity.
  - apply (getImageUrl_chosen (Some [AuctionCard.mkImage (Some ""%string) false])
             ) with (first := AuctionCard.mkImage (Some ""%string) false) (rest := []).
    + reflexivity.
    + repeat constructor.
Defined.

(** * The sum on doubles *)

(** X27. The third check of [placeBid] compares the bid with the sum as
    JavaScript computes it.  With price 10.1 and increment 0.2 that sum is
    10.299999999999999: a bid of this amount passes every check of the
    method, though it is below the exact sum of the two stored numbers.
    With price 0.2 and increment 0.1 the sum is 0.30000000000000004, and a
    bid of 0.3 is refused as less than the increment higher. *)
Theorem placeBid_sum_on_doubles :
  Auction.placeBid 1500 (decimal 10299999999999999 1000000000000000)
    (priced_auction (decimal 101 10) (decimal 2 10))
  = Return (Auction.set_totalBids 1
              (Auction.set_currentPrice (decimal 10299999999999999 1000000000000000)
                 (priced_auction (decimal 101 10) (decimal 2 10))))
  /\ (decimal 10299999999999999 1000000000000000
      < decimal 101 10 + decimal 2 10)%Q
  /\ (Number.add (decimal 2 10) (decimal 1 10)
      == decimal 30000000000000004 100000000000000000)%Q
  /\ Auction.placeBid 1500 (decimal 3 10)
       (priced_auction (decimal 2 10) (decimal 1 10))
     = Throw [Lit "Bid must be at least "; Num (decimal 1 10); Lit " higher"].
Proof.
  split; [|split; [|split]].
  - apply Auction_placeBid_Return. split; [reflexivity|].
    split; [|split; [|reflexivity]]; vm_compute; congruence.
  - vm_compute. reflexivity.
  - vm_compute. reflexivity.
  - apply Auction_placeBid_Throw. right. right.
    split; [reflexivity|]. split; [|split; [|reflexivity]]; vm_compute; reflexivity.
Qed.
